(** * The NLP microservice: request handlers and model lifecycle

    A shallow embedding of [server/nlp_microservice.py].  The service is a set
    of FastAPI route handlers, each a thin wrapper around one model or library
    call inside a [try ... except Exception] block.  The models and libraries
    themselves (transformers, spaCy, YAKE, pandas, Whisper, ...) are external
    collaborators: they are taken as an environment of functions that either
    return a value or raise.  What is modelled from the source is everything
    around them: start-up, the order of calls, the temporary files, the
    exception handlers and the values returned to the web framework. *)

From Stdlib Require Import ZArith List String Ascii Bool Floats Lia.
From Stdlib Require Import Strings.Byte DecimalString.
Import ListNotations.

Open Scope string_scope.
Open Scope Z_scope.

(* ------------------------------------------------------------------------- *)
(** ** Python values *)

(** The values handlers return and models produce.  A dict keeps its
    insertion order, as in Python, so it is an association list. *)
#[warnings="-register-all"]
Inductive pyval : Type :=
| PNone
| PBool (b : bool)
| PInt (z : Z)
| PFloat (f : float)
| PStr (s : string)
| PList (l : list pyval)
| PTuple (l : list pyval)
| PDict (d : list (string * pyval)).

(** A raised exception: its class name and [str(e)].  These are the
    exceptions of class [Exception], which is what the models, the libraries
    and the handlers' own indexing and conversions raise and what
    [except Exception] catches; [KeyboardInterrupt], [SystemExit] and task
    cancellation, which are no [Exception]s, are outside this model. *)
Record exn : Type := Exn { exn_class : string; exn_str : string }.

Inductive result (A : Type) : Type :=
| Ok (a : A)
| Raise (e : exn).
Arguments Ok {A} a.
Arguments Raise {A} e.

Definition bytes := list byte.

Definition py_repr_str (s : string) : string := "'" ++ s ++ "'".

Definition py_type_name (v : pyval) : string :=
  match v with
  | PNone => "NoneType"
  | PBool _ => "bool"
  | PInt _ => "int"
  | PFloat _ => "float"
  | PStr _ => "str"
  | PList _ => "list"
  | PTuple _ => "tuple"
  | PDict _ => "dict"
  end.

(** [seq[i]] for a list or tuple, negative indices counting from the end. *)
Definition seq_index (kind : string) (l : list pyval) (i : Z) : result pyval :=
  let n := Z.of_nat (List.length l) in
  let j := if i <? 0 then i + n else i in
  if (j <? 0) || (n <=? j)
  then Raise (Exn "IndexError" (kind ++ " index out of range"))
  else match nth_error l (Z.to_nat j) with
       | Some v => Ok v
       | None => Raise (Exn "IndexError" (kind ++ " index out of range"))
       end.

Fixpoint dict_lookup (d : list (string * pyval)) (k : string) : option pyval :=
  match d with
  | [] => None
  | (k', v) :: d' => if String.eqb k' k then Some v else dict_lookup d' k
  end.

(** [v[i]] with an integer subscript. *)
Definition getitem_int (v : pyval) (i : Z) : result pyval :=
  match v with
  | PList l => seq_index "list" l i
  | PTuple l => seq_index "tuple" l i
  | PDict _ => Raise (Exn "KeyError" (NilZero.string_of_int (Z.to_int i)))
  | PStr s =>
      let n := Z.of_nat (String.length s) in
      let j := if i <? 0 then i + n else i in
      match (if j <? 0 then None else String.get (Z.to_nat j) s) with
      | Some c => Ok (PStr (String c EmptyString))
      | None => Raise (Exn "IndexError" "string index out of range")
      end
  | _ => Raise (Exn "TypeError"
                  ("'" ++ py_type_name v ++ "' object is not subscriptable"))
  end.

(** [v[k]] with a string subscript. *)
Definition getitem_str (v : pyval) (k : string) : result pyval :=
  match v with
  | PDict d => match dict_lookup d k with
               | Some x => Ok x
               | None => Raise (Exn "KeyError" (py_repr_str k))
               end
  | PList _ => Raise (Exn "TypeError"
                        "list indices must be integers or slices, not str")
  | PTuple _ => Raise (Exn "TypeError"
                         "tuple indices must be integers or slices, not str")
  | PStr _ => Raise (Exn "TypeError" "string indices must be integers, not 'str'")
  | _ => Raise (Exn "TypeError"
                  ("'" ++ py_type_name v ++ "' object is not subscriptable"))
  end.

(** [v.get(k, default)]. *)
Definition dict_get (v : pyval) (k : string) (default : pyval) : result pyval :=
  match v with
  | PDict d => match dict_lookup d k with
               | Some x => Ok x
               | None => Ok default
               end
  | _ => Raise (Exn "AttributeError"
                  ("'" ++ py_type_name v ++ "' object has no attribute 'get'"))
  end.

(** [sep.join(parts)] on strings. *)
Fixpoint str_join (sep : string) (parts : list string) : string :=
  match parts with
  | [] => ""
  | [p] => p
  | p :: rest => p ++ sep ++ str_join sep rest
  end.

(** [s[:n]]. *)
Definition str_prefix (n : nat) (s : string) : string := substring 0 n s.

(** ASCII lower-casing.  Header values reach the handler decoded as Latin-1;
    [str.lower] maps the Latin-1 capitals outside ASCII to letters outside
    ASCII as well, so on the question the handler asks (is the extension one of
    [.csv], [.xls], [.xlsx]) this agrees with Python. *)
Definition lower_ascii (c : ascii) : ascii :=
  let n := nat_of_ascii c in
  if (65 <=? n)%nat && (n <=? 90)%nat then ascii_of_nat (n + 32) else c.

Fixpoint str_lower (s : string) : string :=
  match s with
  | EmptyString => EmptyString
  | String c s' => String (lower_ascii c) (str_lower s')
  end.

(* ------------------------------------------------------------------------- *)
(** ** [os.path.splitext] *)

(** Position of the last occurrence of [c] in [s], if any. *)
Fixpoint rfind_from (c : ascii) (s : string) (pos : nat) (last : option nat)
  : option nat :=
  match s with
  | EmptyString => last
  | String c' s' =>
      rfind_from c s' (S pos) (if Ascii.eqb c' c then Some pos else last)
  end.

Definition rfind (c : ascii) (s : string) : option nat := rfind_from c s 0%nat None.

(** Is some character of [s] in positions [from, upto) different from a dot? *)
Fixpoint has_non_dot (s : string) (from upto : nat) (pos : nat) : bool :=
  match s with
  | EmptyString => false
  | String c s' =>
      if (from <=? pos)%nat && (pos <? upto)%nat && negb (Ascii.eqb c ".")
      then true
      else has_non_dot s' from upto (S pos)
  end.

(** [os.path.splitext(p)[-1]] on POSIX: the text from the last dot of the last
    path component, unless that component consists of leading dots up to
    there, and the empty string otherwise. *)
Definition splitext_ext (p : string) : string :=
  let file_start := match rfind "/" p with Some i => S i | None => 0%nat end in
  match rfind "." p with
  | Some dot =>
      if (file_start <=? dot)%nat && has_non_dot p file_start dot 0%nat
      then substring dot (String.length p - dot)%nat p
      else ""
  | None => ""
  end.

(* ------------------------------------------------------------------------- *)
(** ** The process state and the handler monad *)

(** What a run leaves behind that the contract speaks about: model and engine
    initialisations, calls into loaded models and libraries (with their keyword
    arguments), log records, and temporary files created and removed. *)
Inductive event : Type :=
| Load (name : string)
| Invoke (callee : string) (kwargs : list (string * pyval))
| LogInfo (msg : string)
| LogError (msg : string)
| TmpCreated (path : string)
| Removed (path : string).

(** The file system as far as the service touches it: the temporary files that
    exist, with their contents, and a counter that makes [tempfile] names
    unique. *)
Record world : Type := World {
  fs : list (string * bytes);
  tmp_seq : nat
}.

Definition M (A : Type) : Type := world -> result A * world * list event.

Definition ret {A} (a : A) : M A := fun w => (Ok a, w, []).

Definition raise {A} (e : exn) : M A := fun w => (Raise e, w, []).

Definition bind {A B} (m : M A) (k : A -> M B) : M B :=
  fun w =>
    match m w with
    | (Ok a, w1, t1) =>
        match k a w1 with
        | (r, w2, t2) => (r, w2, (t1 ++ t2)%list)
        end
    | (Raise e, w1, t1) => (Raise e, w1, t1)
    end.

(** [try: m  except Exception as e: h e].  State changes and events of [m] up
    to the raise are kept. *)
Definition try_except {A} (m : M A) (h : exn -> M A) : M A :=
  fun w =>
    match m w with
    | (Ok a, w1, t1) => (Ok a, w1, t1)
    | (Raise e, w1, t1) =>
        match h e w1 with
        | (r, w2, t2) => (r, w2, (t1 ++ t2)%list)
        end
    end.

Definition emit (ev : event) : M unit := fun w => (Ok tt, w, [ev]).

Definition lift {A} (r : result A) : M A := fun w => (r, w, []).

Declare Scope monad_scope.
Delimit Scope monad_scope with monad.
Notation "x <- m ;; k" := (bind m (fun x => k))
  (at level 61, m at next level, right associativity) : monad_scope.
Notation "m ;;; k" := (bind m (fun _ => k))
  (at level 61, right associativity) : monad_scope.
Open Scope monad_scope.

(** A call into a loaded model or a library routine. *)
Definition call {A} (callee : string) (kwargs : list (string * pyval))
  (r : result A) : M A :=
  emit (Invoke callee kwargs) ;;; lift r.

Definition log_info (msg : string) : M unit := emit (LogInfo msg).
Definition log_error (msg : string) : M unit := emit (LogError msg).

Definition result_of {A} (x : result A * world * list event) : result A :=
  fst (fst x).
Definition world_of {A} (x : result A * world * list event) : world :=
  snd (fst x).
Definition events_of {A} (x : result A * world * list event) : list event :=
  snd x.

(** *** Temporary files *)

Fixpoint fs_lookup (files : list (string * bytes)) (path : string)
  : option bytes :=
  match files with
  | [] => None
  | (p, b) :: rest => if String.eqb p path then Some b else fs_lookup rest path
  end.

Fixpoint fs_remove (files : list (string * bytes)) (path : string)
  : list (string * bytes) :=
  match files with
  | [] => []
  | (p, b) :: rest =>
      if String.eqb p path then fs_remove rest path
      else (p, b) :: fs_remove rest path
  end.

Definition file_exists (w : world) (path : string) : bool :=
  match fs_lookup (fs w) path with Some _ => true | None => false end.

Definition tmp_name (n : nat) (suffix : string) : string :=
  "/tmp/tmp" ++ NilEmpty.string_of_uint (Nat.to_uint n) ++ suffix.

(** The longest file name the file system takes. *)
Definition NAME_MAX : nat := 255.

(** The length of a string as a file name: its UTF-8 encoding takes one byte
    for an ASCII character and two for any other character of Latin-1. *)
Fixpoint utf8_length (s : string) : nat :=
  match s with
  | EmptyString => 0%nat
  | String c s' =>
      ((if (nat_of_ascii c <? 128)%nat then 1 else 2) + utf8_length s')%nat
  end.

(** [tempfile] names the file [tmp], eight random characters, then the suffix.
    Does that name fit? *)
Definition tmp_name_fits (suffix : string) : bool :=
  (3 + 8 + utf8_length suffix <=? NAME_MAX)%nat.

(** [with tempfile.NamedTemporaryFile(delete=False, suffix=...) as tmp:
        tmp.write(data); tmp_path = tmp.name]
    The file gets a name no other request has, holds [data], and stays on disk
    when the [with] block closes it.  When the suffix makes the name too long,
    creating the file raises [OSError] and nothing is created. *)
Definition named_temporary_file (suffix : string) (data : bytes) : M string :=
  fun w =>
    let path := tmp_name (tmp_seq w) suffix in
    if tmp_name_fits suffix then
      (Ok path,
       {| fs := (path, data) :: fs w; tmp_seq := S (tmp_seq w) |},
       [TmpCreated path])
    else
      (Raise (Exn "OSError"
                ("[Errno 36] File name too long: " ++ py_repr_str path)),
       w, []).

(** [os.remove(path)]. *)
Definition os_remove (path : string) : M unit :=
  fun w =>
    match fs_lookup (fs w) path with
    | Some _ =>
        (Ok tt, {| fs := fs_remove (fs w) path; tmp_seq := tmp_seq w |},
         [Removed path])
    | None =>
        (Raise (Exn "FileNotFoundError"
                  ("[Errno 2] No such file or directory: " ++ py_repr_str path)),
         w, [])
    end.

(** A library routine that is handed a path and reads that file. *)
Definition call_on_file {A} (callee : string) (kwargs : list (string * pyval))
  (f : bytes -> result A) (path : string) : M A :=
  fun w =>
    match fs_lookup (fs w) path with
    | Some data => call callee kwargs (f data) w
    | None =>
        call callee kwargs
          (Raise (Exn "FileNotFoundError"
                    ("[Errno 2] No such file or directory: " ++ py_repr_str path)))
          w
    end.

(* ------------------------------------------------------------------------- *)
(** ** Requests *)

(** [class TextRequest(BaseModel)] *)
Record TextRequest : Type := {
  text : string;
  type : option string;
  context : option string
}.

(** [class EmbedRequest(BaseModel)] *)
Record EmbedRequest : Type := { texts : list string }.

(** A raw [Request]: the body and the headers.  The server hands header names
    over in lower case. *)
Record Request : Type := {
  body : bytes;
  headers : list (string * string)
}.

(** [request.headers.get(key, default)]: the first header of that name, the
    key compared in lower case. *)
Fixpoint headers_get (hs : list (string * string)) (key default : string)
  : string :=
  match hs with
  | [] => default
  | (k, v) :: rest =>
      if String.eqb k (str_lower key) then v else headers_get rest key default
  end.

(* ------------------------------------------------------------------------- *)
(** ** External collaborators *)

(** A loaded model, pipeline or engine object. *)
Inductive handle : Type := Loaded (name : string).

(** A spaCy entity span.  [kb_id_] is [None] when the span has no such
    attribute ([hasattr(ent, 'kb_id_')] is false). *)
Record ent : Type := {
  ent_text : string;
  kb_id_ : option string;
  label_ : string
}.

(** A spaCy [Doc]: its entities and the two optional extension attributes the
    coreference handler probes, the clusters already as mention strings. *)
Record doc : Type := {
  ents : list ent;
  coref_resolved : option string;
  coref_clusters : option (list (list string))
}.

(** A pandas [DataFrame] as far as the table handler looks at it. *)
Record dataframe : Type := {
  df_columns : list string;
  df_len : Z;
  df_to_csv : string
}.

(** A numpy [float32]: an IEEE binary32 value (24 bits of precision, exponents
    up to 128), with the arithmetic of the floating-point specification at
    that format. *)
Definition float32 : Type := spec_float.

(** The [float32] nearest to [m * 2^e]. *)
Definition f32 (m e : Z) : float32 := binary_normalize 24 128 m e false.

(** The models and libraries, as functions that return or raise.  Calls that
    take a file path are given the contents of that file. *)
Record Env : Type := {
  image : Type;
  clip_inputs : Type;
  audio : Type;
  audio_inputs : Type;
  (* model and engine initialisation: [Some e] when loading [name] raises *)
  load_error : string -> option exn;
  (* a transformers pipeline called on a text with keyword arguments *)
  pipeline_run : handle -> string -> list (string * pyval) -> result pyval;
  spacy_run : handle -> string -> result doc;
  yake_extract_keywords : handle -> string -> result (list (string * float));
  embedder_encode : handle -> list string -> result (list (list float));
  (* [pdfplumber.open]: the pages, each with what [extract_text()] does *)
  pdf_open : bytes -> result (list (result (option string)));
  image_open : bytes -> result image;
  image_convert : image -> string -> result image;
  pytesseract_image_to_string : image -> result string;
  (* [reader.readtext(np.array(img))]: the recognised text of each hit *)
  easyocr_readtext : handle -> image -> result (list string);
  whisper_transcribe : handle -> bytes -> result pyval;
  pd_read_csv : bytes -> result dataframe;
  pd_read_excel : bytes -> result dataframe;
  clip_processor_run : handle -> image -> result clip_inputs;
  (* the first row of [get_image_features], as a numpy [float32] vector *)
  clip_image_features : handle -> clip_inputs -> result (list float32);
  sf_read : bytes -> result (audio * Z);
  audio_multichannel : audio -> bool;
  audio_mean_axis1 : audio -> audio;
  wav2vec2_processor_run : handle -> audio -> Z -> result audio_inputs;
  (* [last_hidden_state.mean(dim=1)[0]] of the model output, as a numpy
     [float32] vector *)
  wav2vec2_features : handle -> audio_inputs -> result (list float32);
  (* the built-in [float] on a string and on an int *)
  float_of_str : string -> option float;
  float_of_int : Z -> result float
}.

(** [float(v)] *)
Definition py_float (env : Env) (v : pyval) : result float :=
  match v with
  | PFloat f => Ok f
  | PBool b => Ok (if b then 1%float else 0%float)
  | PInt z => float_of_int env z
  | PStr s =>
      match float_of_str env s with
      | Some f => Ok f
      | None => Raise (Exn "ValueError"
                         ("could not convert string to float: " ++ py_repr_str s))
      end
  | _ => Raise (Exn "TypeError"
                  ("float() argument must be a string or a real number, not '"
                     ++ py_type_name v ++ "'"))
  end.

(* ------------------------------------------------------------------------- *)
(** ** Start-up: the module-level code *)

(** The module globals that hold models.  The three embedders are [None] when
    their loading raised. *)
Record registry : Type := {
  ner_pipeline : handle;
  sentiment_pipeline : handle;
  summarizer : handle;
  paraphrase_pipeline : handle;
  intent_pipeline : handle;
  nlp_spacy : handle;
  kw_extractor : handle;
  embedder : option handle;
  clip_model : option handle;
  clip_processor : option handle;
  wav2vec2_model : option handle;
  wav2vec2_processor : option handle
}.

(** Constructing a model, pipeline, extractor or engine object. *)
Definition load (env : Env) (name : string) : M handle :=
  emit (Load name) ;;;
  match load_error env name with
  | Some e => raise e
  | None => ret (Loaded name)
  end.

Definition NER_MODEL := "pipeline:ner:dslim/bert-base-NER".
Definition SENTIMENT_MODEL :=
  "pipeline:sentiment-analysis:distilbert-base-uncased-finetuned-sst-2-english".
Definition SUMMARY_MODEL := "pipeline:summarization:facebook/bart-large-cnn".
Definition PARAPHRASE_MODEL :=
  "pipeline:text2text-generation:ramsrigouthamg/t5_paraphraser".
Definition INTENT_MODEL :=
  "pipeline:text-classification:bhadresh-savani/distilbert-base-uncased-emotion".
Definition SPACY_MODEL := "spacy.load:en_core_web_trf".
Definition SPACY_BLANK := "spacy.blank:en".
Definition YAKE_EXTRACTOR := "yake.KeywordExtractor:en,n=2,top=10".
Definition EMBEDDER_MODEL := "SentenceTransformer:all-MiniLM-L6-v2".
Definition CLIP_MODEL := "CLIPModel:openai/clip-vit-base-patch16".
Definition CLIP_PROCESSOR := "CLIPProcessor:openai/clip-vit-base-patch16".
Definition WAV2VEC2_MODEL := "Wav2Vec2Model:facebook/wav2vec2-base-960h".
Definition WAV2VEC2_PROCESSOR := "Wav2Vec2Processor:facebook/wav2vec2-base-960h".
Definition WHISPER_MODEL := "whisper.load_model:base".
Definition EASYOCR_READER := "easyocr.Reader:en".

(** Lines 39-42: spaCy falls back to a blank English pipeline. *)
Definition load_spacy (env : Env) : M handle :=
  try_except (load env SPACY_MODEL) (fun _ => load env SPACY_BLANK).

(** Lines 51-55: the sentence embedder, [None] when loading raises. *)
Definition load_embedder (env : Env) : M (option handle) :=
  try_except
    (h <- load env EMBEDDER_MODEL ;; ret (Some h))
    (fun e =>
       log_error ("Failed to load SentenceTransformer: " ++ exn_str e) ;;;
       ret None).

(** Lines 58-64 and 67-73: a model and its processor in one [try]; both
    globals are [None] when either load raises. *)
Definition load_pair (env : Env) (label model_name processor_name : string)
  : M (option handle * option handle) :=
  try_except
    (m <- load env model_name ;;
     p <- load env processor_name ;;
     ret (Some m, Some p))
    (fun e =>
       log_error (label ++ exn_str e) ;;;
       ret (None, None)).

(** Lines 31-73.  The five pipelines and the keyword extractor are built
    outside any [try]: if one raises, the import of the module fails. *)
Definition startup (env : Env) : M registry :=
  ner <- load env NER_MODEL ;;
  sent <- load env SENTIMENT_MODEL ;;
  summ <- load env SUMMARY_MODEL ;;
  para <- load env PARAPHRASE_MODEL ;;
  intn <- load env INTENT_MODEL ;;
  spc <- load_spacy env ;;
  kw <- load env YAKE_EXTRACTOR ;;
  emb <- load_embedder env ;;
  clip <- load_pair env "Failed to load CLIP model: "
            CLIP_MODEL CLIP_PROCESSOR ;;
  wav <- load_pair env "Failed to load Wav2Vec2 model: "
           WAV2VEC2_MODEL WAV2VEC2_PROCESSOR ;;
  ret {| ner_pipeline := ner;
         sentiment_pipeline := sent;
         summarizer := summ;
         paraphrase_pipeline := para;
         intent_pipeline := intn;
         nlp_spacy := spc;
         kw_extractor := kw;
         embedder := emb;
         clip_model := fst clip;
         clip_processor := snd clip;
         wav2vec2_model := fst wav;
         wav2vec2_processor := snd wav |}.

(* ------------------------------------------------------------------------- *)
(** ** Route handlers *)

Definition error_body (msg : string) : pyval := PDict [("error", PStr msg)].

(** [return {"error": msg}, 500] returns a two-element tuple. *)
Definition error_500 (msg : string) : pyval :=
  PTuple [error_body msg; PInt 500].

(** The body every [except Exception as e:] clause of a handler has:
    [logger.error(f"<label>{e}"); return {"error": str(e)}, 500]. *)
Definition except_500 (label : string) (e : exn) : M pyval :=
  log_error (label ++ exn_str e) ;;;
  ret (error_500 (exn_str e)).

(** The [f"... {req.text[:50]}... -> {result}"] log lines; how the result
    prints is left out. *)
Definition request_log (label text : string) : M unit :=
  log_info (label ++ str_prefix 50 text ++ "... -> ").

Definition newline : string := String (ascii_of_nat 10) EmptyString.

(** [@app.get("/health")] *)
Definition health : M pyval := ret (PDict [("status", PStr "ok")]).

(** [@app.post("/ner")] *)
Definition ner (env : Env) (reg : registry) (req : TextRequest) : M pyval :=
  try_except
    (result <- call "ner_pipeline" []
                 (pipeline_run env (ner_pipeline reg) (text req) []) ;;
     request_log "NER request: " (text req) ;;;
     ret (PDict [("entities", result)]))
    (except_500 "NER error: ").

(** [@app.post("/sentiment")] *)
Definition sentiment (env : Env) (reg : registry) (req : TextRequest) : M pyval :=
  try_except
    (result <- call "sentiment_pipeline" []
                 (pipeline_run env (sentiment_pipeline reg) (text req) []) ;;
     request_log "Sentiment request: " (text req) ;;;
     lift (getitem_int result 0))
    (except_500 "Sentiment error: ").

Definition SUMMARIZER_KWARGS : list (string * pyval) :=
  [("max_length", PInt 130); ("min_length", PInt 30); ("do_sample", PBool false)].

(** [req.type == "extractive"] *)
Definition is_extractive (req : TextRequest) : bool :=
  match type req with
  | Some t => String.eqb t "extractive"
  | None => false
  end.

(** [@app.post("/summarize")] *)
Definition summarize (env : Env) (reg : registry) (req : TextRequest) : M pyval :=
  try_except
    (if is_extractive req then
       keywords <- call "kw_extractor.extract_keywords" []
                     (yake_extract_keywords env (kw_extractor reg) (text req)) ;;
       let summary := str_join " " (map fst keywords) in
       request_log "Summarize (extractive) request: " (text req) ;;;
       ret (PDict [("summary", PStr summary)])
     else
       result <- call "summarizer" SUMMARIZER_KWARGS
                   (pipeline_run env (summarizer reg) (text req)
                      SUMMARIZER_KWARGS) ;;
       request_log "Summarize (abstractive) request: " (text req) ;;;
       first <- lift (getitem_int result 0) ;;
       summary <- lift (getitem_str first "summary_text") ;;
       ret (PDict [("summary", summary)]))
    (except_500 "Summarize error: ").

(** [@app.post("/intent")] *)
Definition intent (env : Env) (reg : registry) (req : TextRequest) : M pyval :=
  try_except
    (result <- call "intent_pipeline" []
                 (pipeline_run env (intent_pipeline reg) (text req) []) ;;
     request_log "Intent request: " (text req) ;;;
     first <- lift (getitem_int result 0) ;;
     label <- lift (getitem_str first "label") ;;
     first' <- lift (getitem_int result 0) ;;
     score <- lift (getitem_str first' "score") ;;
     confidence <- lift (py_float env score) ;;
     ret (PDict [("intent", label); ("confidence", PFloat confidence)]))
    (except_500 "Intent error: ").

(** [@app.post("/keywords")] *)
Definition keywords (env : Env) (reg : registry) (req : TextRequest) : M pyval :=
  try_except
    (kws <- call "kw_extractor.extract_keywords" []
              (yake_extract_keywords env (kw_extractor reg) (text req)) ;;
     request_log "Keywords request: " (text req) ;;;
     ret (PDict [("keywords", PList (map (fun kw => PStr (fst kw)) kws))]))
    (except_500 "Keywords error: ").

(** [@app.post("/coref")] *)
Definition coref (env : Env) (reg : registry) (req : TextRequest) : M pyval :=
  try_except
    (d <- call "nlp_spacy" [] (spacy_run env (nlp_spacy reg) (text req)) ;;
     let resolved :=
       match coref_resolved d with Some s => s | None => text req end in
     let clusters :=
       match coref_clusters d with Some c => c | None => [] end in
     request_log "Coref request: " (text req) ;;;
     ret (PDict
            [("resolved_text", PStr resolved);
             ("clusters",
               match clusters with
               | [] => PList []
               | _ => PList (map (fun cluster => PList (map PStr cluster))
                               clusters)
               end)]))
    (except_500 "Coref error: ").

Definition PARAPHRASE_KWARGS : list (string * pyval) :=
  [("max_length", PInt 256); ("do_sample", PBool true); ("top_k", PInt 120);
   ("top_p", PFloat 0x1.f5c28f5c28f5cp-1%float);
   ("num_return_sequences", PInt 1)].

(** [@app.post("/paraphrase")] *)
Definition paraphrase (env : Env) (reg : registry) (req : TextRequest) : M pyval :=
  try_except
    (result <- call "paraphrase_pipeline" PARAPHRASE_KWARGS
                 (pipeline_run env (paraphrase_pipeline reg)
                    ("paraphrase: " ++ text req) PARAPHRASE_KWARGS) ;;
     request_log "Paraphrase request: " (text req) ;;;
     first <- lift (getitem_int result 0) ;;
     generated <- lift (getitem_str first "generated_text") ;;
     ret (PDict [("paraphrased", generated)]))
    (except_500 "Paraphrase error: ").

(** Truthiness of a string: [if entity_id]. *)
Definition str_truthy (s : string) : bool :=
  match s with EmptyString => false | _ => true end.

(** One pass of the [for ent in doc.ents:] body: the dict appended for [e]. *)
Definition link_entity (env : Env) (e : ent) : result pyval :=
  let entity_id := match kb_id_ e with Some s => s | None => "" end in
  let entity_label := label_ e in
  match
    (if str_truthy entity_id
     then match kb_id_ e with
          | Some s => py_float env (PStr s)
          | None => Raise (Exn "AttributeError" "kb_id_")
          end
     else Ok 1%float)
  with
  | Ok confidence =>
      Ok (PDict [("mention", PStr (ent_text e));
                 ("entity_id", PStr entity_id);
                 ("entity_label", PStr entity_label);
                 ("confidence", PFloat confidence)])
  | Raise ex => Raise ex
  end.

(** The loop over [doc.ents]: stops at the first entity whose dict raises. *)
Fixpoint link_entities (env : Env) (es : list ent) : result (list pyval) :=
  match es with
  | [] => Ok []
  | e :: rest =>
      match link_entity env e with
      | Raise ex => Raise ex
      | Ok d =>
          match link_entities env rest with
          | Raise ex => Raise ex
          | Ok ds => Ok (d :: ds)
          end
      end
  end.

(** [@app.post("/entity-linking")] *)
Definition entity_linking (env : Env) (reg : registry) (req : TextRequest)
  : M pyval :=
  try_except
    (d <- call "nlp_spacy" [] (spacy_run env (nlp_spacy reg) (text req)) ;;
     entities <- lift (link_entities env (ents d)) ;;
     request_log "Entity linking request: " (text req) ;;;
     ret (PDict [("entities", PList entities)]))
    (except_500 "Entity linking error: ").

(** [@app.post("/embed")] *)
Definition embed (env : Env) (reg : registry) (req : EmbedRequest) : M pyval :=
  match embedder reg with
  | None => ret (error_500 "Embedding model not loaded")
  | Some h =>
      try_except
        (embeddings <- call "embedder.encode" [("convert_to_numpy", PBool true)]
                         (embedder_encode env h (texts req)) ;;
         log_info "Embed request: " ;;;
         ret (PDict [("embeddings",
                       PList (map (fun v => PList (map PFloat v)) embeddings))]))
        (except_500 "Embedding error: ")
  end.

(** The generator inside ["\n".join(...)]: [page.extract_text() or ''] for
    each page in turn. *)
Fixpoint extract_pages (pages : list (result (option string)))
  : M (list string) :=
  match pages with
  | [] => ret []
  | p :: rest =>
      t <- call "page.extract_text" [] p ;;
      ts <- extract_pages rest ;;
      ret (match t with Some s => s | None => "" end :: ts)
  end.

(** [@app.post("/pdf")] *)
Definition extract_pdf (env : Env) (req : Request) : M pyval :=
  try_except
    (pages <- call "pdfplumber.open" [] (pdf_open env (body req)) ;;
     page_texts <- extract_pages pages ;;
     let num_pages := Z.of_nat (List.length pages) in
     ret (PDict [("text", PStr (str_join newline page_texts));
                 ("metadata", PDict [("num_pages", PInt num_pages)])]))
    (except_500 "PDF extraction error: ").

(** [@app.post("/ocr")] *)
Definition ocr_image (env : Env) (req : Request) : M pyval :=
  try_except
    (img <- call "Image.open" [] (image_open env (body req)) ;;
     tm <- try_except
             (t <- call "pytesseract.image_to_string" []
                     (pytesseract_image_to_string env img) ;;
              ret (t, "pytesseract"))
             (fun _ =>
                reader <- load env EASYOCR_READER ;;
                hits <- call "reader.readtext" []
                          (easyocr_readtext env reader img) ;;
                ret (str_join " " hits, "easyocr")) ;;
     ret (PDict [("text", PStr (fst tm));
                 ("metadata", PDict [("ocr_method", PStr (snd tm))])]))
    (except_500 "OCR error: ").

(** [@app.post("/transcribe")] *)
Definition transcribe_audio (env : Env) (req : Request) : M pyval :=
  try_except
    (tmp_path <- named_temporary_file ".wav" (body req) ;;
     model <- load env WHISPER_MODEL ;;
     result <- call_on_file "model.transcribe" []
                 (whisper_transcribe env model) tmp_path ;;
     os_remove tmp_path ;;;
     txt <- lift (getitem_str result "text") ;;
     lang <- lift (dict_get result "language" (PStr "en")) ;;
     ret (PDict [("text", txt); ("metadata", PDict [("language", lang)])]))
    (except_500 "Whisper transcription error: ").

(** [ext in [".xls", ".xlsx"]] *)
Definition is_excel_ext (ext : string) : bool :=
  String.eqb ext ".xls" || String.eqb ext ".xlsx".

(** Lines 263-264: the file name hint and its lower-cased extension. *)
Definition table_ext (req : Request) : string :=
  let file_name := headers_get (headers req) "x-file-name" "table.csv" in
  str_lower (splitext_ext file_name).

(** Lines 268-273: the parser is picked by extension. *)
Definition read_table (env : Env) (ext tmp_path : string) : M dataframe :=
  if String.eqb ext ".csv" then
    call_on_file "pd.read_csv" [] (pd_read_csv env) tmp_path
  else if is_excel_ext ext then
    call_on_file "pd.read_excel" [] (pd_read_excel env) tmp_path
  else
    raise (Exn "ValueError" "Unsupported table file type").

(** [@app.post("/table")] *)
Definition parse_table (env : Env) (req : Request) : M pyval :=
  try_except
    (let ext := table_ext req in
     tmp_path <- named_temporary_file ext (body req) ;;
     df <- read_table env ext tmp_path ;;
     os_remove tmp_path ;;;
     ret (PDict [("text", PStr (df_to_csv df));
                 ("metadata",
                   PDict [("columns", PList (map PStr (df_columns df)));
                          ("rows", PInt (df_len df))])]))
    (except_500 "Table parsing error: ").

(** [np.linalg.norm] of a [float32] vector: the square root of the sum of
    squares, every operation rounded to [float32], the sum taken from left to
    right. *)
Definition np_linalg_norm (v : list float32) : float32 :=
  SFsqrt 24 128
    (fold_left (fun s x => SFadd 24 128 s (SFmul 24 128 x x)) v
       (S754_zero false)).

(** [array / norm]: every component divided, in [float32]. *)
Definition np_divide (v : list float32) (norm : float32) : list float32 :=
  map (fun x => SFdiv 24 128 x norm) v.

(** [norm = np.linalg.norm(v); if norm > 0: v = v / norm] *)
Definition l2_normalize (v : list float32) : list float32 :=
  let norm := np_linalg_norm v in
  if SFltb (S754_zero false) norm then np_divide v norm else v.

(** [array.tolist()]: every [float32] becomes the Python float of the same
    value. *)
Definition tolist (v : list float32) : list float := map SF2Prim v.

(** [@app.post("/image-embed")] *)
Definition image_embed (env : Env) (reg : registry) (req : Request) : M pyval :=
  match clip_model reg, clip_processor reg with
  | Some model, Some processor =>
      try_except
        (opened <- call "Image.open" [] (image_open env (body req)) ;;
         img <- call "Image.convert" [] (image_convert env opened "RGB") ;;
         inputs <- call "clip_processor" [("return_tensors", PStr "pt")]
                     (clip_processor_run env processor img) ;;
         image_features <- call "clip_model.get_image_features" []
                             (clip_image_features env model inputs) ;;
         ret (PDict [("embedding",
                       PList (map PFloat
                                (tolist (l2_normalize image_features))))]))
        (except_500 "Image embedding error: ")
  | _, _ => ret (error_500 "CLIP model not loaded")
  end.

(** [@app.post("/audio-embed")] *)
Definition audio_embed (env : Env) (reg : registry) (req : Request) : M pyval :=
  match wav2vec2_model reg, wav2vec2_processor reg with
  | Some model, Some processor =>
      try_except
        (tmp_path <- named_temporary_file ".wav" (body req) ;;
         read <- call_on_file "sf.read" [] (sf_read env) tmp_path ;;
         os_remove tmp_path ;;;
         let speech :=
           if audio_multichannel env (fst read)
           then audio_mean_axis1 env (fst read)
           else fst read in
         inputs <- call "wav2vec2_processor"
                     [("sampling_rate", PInt (snd read));
                      ("return_tensors", PStr "pt")]
                     (wav2vec2_processor_run env processor speech (snd read)) ;;
         audio_features <- call "wav2vec2_model" []
                             (wav2vec2_features env model inputs) ;;
         ret (PDict [("embedding",
                       PList (map PFloat
                                (tolist (l2_normalize audio_features))))]))
        (except_500 "Audio embedding error: ")
  | _, _ => ret (error_500 "Wav2Vec2 model not loaded")
  end.

(* ------------------------------------------------------------------------- *)
(** ** The application: routes and the framework's response *)

(** A request as the router sees it: the route together with the input the
    handler of that route declares. *)
Inductive api_request : Type :=
| GetHealth
| PostNer (req : TextRequest)
| PostSentiment (req : TextRequest)
| PostSummarize (req : TextRequest)
| PostIntent (req : TextRequest)
| PostKeywords (req : TextRequest)
| PostCoref (req : TextRequest)
| PostParaphrase (req : TextRequest)
| PostEntityLinking (req : TextRequest)
| PostEmbed (req : EmbedRequest)
| PostPdf (req : Request)
| PostOcr (req : Request)
| PostTranscribe (req : Request)
| PostTable (req : Request)
| PostImageEmbed (req : Request)
| PostAudioEmbed (req : Request).

Definition app (env : Env) (reg : registry) (r : api_request) : M pyval :=
  match r with
  | GetHealth => health
  | PostNer req => ner env reg req
  | PostSentiment req => sentiment env reg req
  | PostSummarize req => summarize env reg req
  | PostIntent req => intent env reg req
  | PostKeywords req => keywords env reg req
  | PostCoref req => coref env reg req
  | PostParaphrase req => paraphrase env reg req
  | PostEntityLinking req => entity_linking env reg req
  | PostEmbed req => embed env reg req
  | PostPdf req => extract_pdf env req
  | PostOcr req => ocr_image env req
  | PostTranscribe req => transcribe_audio env req
  | PostTable req => parse_table env req
  | PostImageEmbed req => image_embed env reg req
  | PostAudioEmbed req => audio_embed env reg req
  end.

#[warnings="-register-all"]
Inductive json : Type :=
| JNull
| JBool (b : bool)
| JInt (z : Z)
| JFloat (f : float)
| JStr (s : string)
| JArr (l : list json)
| JObj (d : list (string * json)).

(** FastAPI's [jsonable_encoder]: dicts become objects, lists and tuples alike
    become arrays. *)
Fixpoint jsonable_encoder (v : pyval) : json :=
  match v with
  | PNone => JNull
  | PBool b => JBool b
  | PInt z => JInt z
  | PFloat f => JFloat f
  | PStr s => JStr s
  | PList l => JArr (map jsonable_encoder l)
  | PTuple l => JArr (map jsonable_encoder l)
  | PDict d => JObj (map (fun kv => (fst kv, jsonable_encoder (snd kv))) d)
  end.

Record http_response : Type := {
  status_code : Z;
  content : json
}.

(** Can the value be rendered as JSON?  The renderer refuses floats that are
    NaN or infinite. *)
Fixpoint json_compliant (j : json) : bool :=
  match j with
  | JFloat f => negb (PrimFloat.is_nan f) && negb (PrimFloat.is_infinity f)
  | JArr l => forallb json_compliant l
  | JObj d => forallb (fun kv => json_compliant (snd kv)) d
  | _ => true
  end.

Definition internal_server_error : http_response :=
  {| status_code := 500; content := JStr "Internal Server Error" |}.

(** What FastAPI sends for a route declared as [@app.get(path)] or
    [@app.post(path)] with no [status_code]: whatever the handler returns is
    encoded as the JSON body of a 200 response; an exception that escapes the
    handler, or a value that cannot be rendered, gives the server's 500. *)
Definition fastapi_response (r : result pyval) : http_response :=
  match r with
  | Ok v =>
      let j := jsonable_encoder v in
      if json_compliant j then {| status_code := 200; content := j |}
      else internal_server_error
  | Raise _ => internal_server_error
  end.

(** Serving one request in a running process. *)
Definition serve (env : Env) (reg : registry) (r : api_request) (w : world)
  : http_response :=
  fastapi_response (result_of (app env reg r w)).

Definition is_success (status : Z) : bool := (200 <=? status) && (status <? 300).

(* ------------------------------------------------------------------------- *)
(** ** Reading a run *)

(** The models and engines initialised in a stretch of events. *)
Fixpoint loads (t : list event) : list string :=
  match t with
  | [] => []
  | Load name :: t' => name :: loads t'
  | _ :: t' => loads t'
  end.

(** The keyword arguments of every call made to [callee]. *)
Fixpoint invocations (callee : string) (t : list event)
  : list (list (string * pyval)) :=
  match t with
  | [] => []
  | Invoke c kwargs :: t' =>
      if String.eqb c callee then kwargs :: invocations callee t'
      else invocations callee t'
  | _ :: t' => invocations callee t'
  end.

(** The temporary files created in a stretch of events. *)
Fixpoint created (t : list event) : list string :=
  match t with
  | [] => []
  | TmpCreated p :: t' => p :: created t'
  | _ :: t' => created t'
  end.

(** A process: start-up, then the requests one after the other.  When start-up
    raises there is no process to serve anything. *)
Fixpoint serve_all (env : Env) (reg : registry) (rs : list api_request)
  (w : world) : list (result pyval) * world * list event :=
  match rs with
  | [] => ([], w, [])
  | r :: rest =>
      match app env reg r w with
      | (res, w1, t1) =>
          match serve_all env reg rest w1 with
          | (ress, w2, t2) => (res :: ress, w2, (t1 ++ t2)%list)
          end
      end
  end.

(** The events of the request-handling phase of a process. *)
Definition request_phase_events (env : Env) (rs : list api_request) (w : world)
  : list event :=
  match startup env w with
  | (Ok reg, w1, _) => snd (serve_all env reg rs w1)
  | (Raise _, _, _) => []
  end.

(** The capabilities whose load failure the module records, each with the
    globals it guards on and the endpoint it serves. *)
Inductive guarded_capability : Type :=
| TextEmbedding
| ImageEmbedding
| AudioEmbedding.

(** [embedder is None], [clip_model is None or clip_processor is None],
    [wav2vec2_model is None or wav2vec2_processor is None]. *)
Definition unloaded (reg : registry) (c : guarded_capability) : bool :=
  match c with
  | TextEmbedding =>
      match embedder reg with None => true | Some _ => false end
  | ImageEmbedding =>
      match clip_model reg, clip_processor reg with
      | Some _, Some _ => false
      | _, _ => true
      end
  | AudioEmbedding =>
      match wav2vec2_model reg, wav2vec2_processor reg with
      | Some _, Some _ => false
      | _, _ => true
      end
  end.

Definition unloaded_message (c : guarded_capability) : string :=
  match c with
  | TextEmbedding => "Embedding model not loaded"
  | ImageEmbedding => "CLIP model not loaded"
  | AudioEmbedding => "Wav2Vec2 model not loaded"
  end.

(** The requests routed to the endpoint of a capability. *)
Definition targets (r : api_request) (c : guarded_capability) : bool :=
  match r, c with
  | PostEmbed _, TextEmbedding => true
  | PostImageEmbed _, ImageEmbedding => true
  | PostAudioEmbed _, AudioEmbedding => true
  | _, _ => false
  end.

(* ------------------------------------------------------------------------- *)
(** ** Concrete environments for running the handlers *)

Definition empty_doc : doc :=
  {| ents := []; coref_resolved := None; coref_clusters := None |}.

Definition table_a_b : dataframe :=
  {| df_columns := ["a"; "b"];
     df_len := 1;
     df_to_csv := "a,b" ++ newline ++ "1,2" ++ newline |}.

(** An environment in which the text models, pandas and the audio chain
    answer with fixed values, and the remaining behaviour is chosen by the
    arguments: which loads raise, what the pipelines, spaCy, the two OCR
    engines and Whisper do, the feature vector both embedders produce, and
    which strings [float] accepts. *)
Definition sample_env
  (load_err : string -> option exn)
  (pipe : handle -> string -> list (string * pyval) -> result pyval)
  (spacy : handle -> string -> result doc)
  (tess : result string)
  (easy : result (list string))
  (whisper : result pyval)
  (feats : list float32)
  (to_float : string -> option float) : Env :=
  {| image := bytes;
     clip_inputs := bytes;
     audio := bytes;
     audio_inputs := bytes;
     load_error := load_err;
     pipeline_run := pipe;
     spacy_run := spacy;
     yake_extract_keywords :=
       fun _ _ => Ok [("model lifecycle", 0x1p-5%float);
                      ("error envelope", 0x1p-4%float)];
     embedder_encode := fun _ ts => Ok (map (fun _ => [1%float]) ts);
     pdf_open := fun _ => Ok [Ok (Some "page one"); Ok None];
     image_open := fun b => Ok b;
     image_convert := fun i _ => Ok i;
     pytesseract_image_to_string := fun _ => tess;
     easyocr_readtext := fun _ _ => easy;
     whisper_transcribe := fun _ _ => whisper;
     pd_read_csv := fun _ => Ok table_a_b;
     pd_read_excel := fun _ => Ok table_a_b;
     clip_processor_run := fun _ i => Ok i;
     clip_image_features := fun _ _ => Ok feats;
     sf_read := fun b => Ok (b, 16000);
     audio_multichannel := fun _ => false;
     audio_mean_axis1 := fun a => a;
     wav2vec2_processor_run := fun _ a _ => Ok a;
     wav2vec2_features := fun _ _ => Ok feats;
     float_of_str :=
       to_float;
     float_of_int := fun _ => Ok 0%float |}.

Definition all_loads_succeed : string -> option exn := fun _ => None.

Definition load_fails_for (names : list string) : string -> option exn :=
  fun name =>
    if existsb (String.eqb name) names
    then Some (Exn "OSError" ("cannot load " ++ name))
    else None.

Definition pipeline_summary : handle -> string -> list (string * pyval)
                              -> result pyval :=
  fun _ _ _ => Ok (PList [PDict [("summary_text", PStr "A short summary.")]]).

Definition pipeline_raises : handle -> string -> list (string * pyval)
                             -> result pyval :=
  fun _ _ _ => Raise (Exn "RuntimeError" "CUDA out of memory").

Definition spacy_empty : handle -> string -> result doc :=
  fun _ _ => Ok empty_doc.

(** spaCy links one entity to a Wikidata identifier. *)
Definition spacy_wikidata : handle -> string -> result doc :=
  fun _ _ =>
    Ok {| ents := [ {| ent_text := "Paris"; kb_id_ := Some "Q90";
                       label_ := "GPE" |} ];
          coref_resolved := None;
          coref_clusters := None |}.

(** [float] on the two strings the examples use. *)
Definition float_small : string -> option float :=
  fun s => if String.eqb s "0.5" then Some 0x1p-1%float
           else if String.eqb s "1" then Some 1%float
           else None.

Definition whisper_hello : result pyval :=
  Ok (PDict [("text", PStr "hello"); ("language", PStr "en")]).

(** Everything loads and every engine answers. *)
Definition env_healthy : Env :=
  sample_env all_loads_succeed pipeline_summary spacy_empty
    (Ok "scanned text") (Ok ["scanned"; "text"]) whisper_hello
    [f32 3 0; f32 4 0] float_small.

(** The NER pipeline (like every pipeline) raises on the request. *)
Definition env_pipeline_raises : Env :=
  sample_env all_loads_succeed pipeline_raises spacy_empty
    (Ok "scanned text") (Ok ["scanned"; "text"]) whisper_hello
    [f32 3 0; f32 4 0] float_small.

(** Whisper raises while transcribing. *)
Definition env_whisper_raises : Env :=
  sample_env all_loads_succeed pipeline_summary spacy_empty
    (Ok "scanned text") (Ok ["scanned"; "text"])
    (Raise (Exn "RuntimeError" "Failed to load audio"))
    [f32 3 0; f32 4 0] float_small.

(** Tesseract is not installed; EasyOCR reads the image. *)
Definition env_tesseract_missing : Env :=
  sample_env all_loads_succeed pipeline_summary spacy_empty
    (Raise (Exn "TesseractNotFoundError" "tesseract is not installed"))
    (Ok ["scanned"; "text"]) whisper_hello
    [f32 3 0; f32 4 0] float_small.

(** Both OCR engines raise on the image. *)
Definition env_both_ocr_raise : Env :=
  sample_env all_loads_succeed pipeline_summary spacy_empty
    (Raise (Exn "TesseractNotFoundError" "tesseract is not installed"))
    (Raise (Exn "ValueError" "image has no data")) whisper_hello
    [f32 3 0; f32 4 0] float_small.

(** The three embedders fail to load. *)
Definition env_embedders_missing : Env :=
  sample_env
    (load_fails_for [EMBEDDER_MODEL; CLIP_MODEL; WAV2VEC2_PROCESSOR])
    pipeline_summary spacy_empty
    (Ok "scanned text") (Ok ["scanned"; "text"]) whisper_hello
    [f32 3 0; f32 4 0] float_small.

(** spaCy returns an entity linked to a Wikidata identifier. *)
Definition env_wikidata : Env :=
  sample_env all_loads_succeed pipeline_summary spacy_wikidata
    (Ok "scanned text") (Ok ["scanned"; "text"]) whisper_hello
    [f32 3 0; f32 4 0] float_small.

(** spaCy returns an entity whose knowledge-base id is a decimal numeral. *)
Definition spacy_numeric : handle -> string -> result doc :=
  fun _ _ =>
    Ok {| ents := [ {| ent_text := "Paris"; kb_id_ := Some "0.5";
                       label_ := "GPE" |};
                    {| ent_text := "today"; kb_id_ := Some "";
                       label_ := "DATE" |} ];
          coref_resolved := None;
          coref_clusters := None |}.

Definition env_numeric_ids : Env :=
  sample_env all_loads_succeed pipeline_summary spacy_numeric
    (Ok "scanned text") (Ok ["scanned"; "text"]) whisper_hello
    [f32 3 0; f32 4 0] float_small.

(** The transformer model of spaCy is not installed. *)
Definition env_spacy_missing : Env :=
  sample_env (load_fails_for [SPACY_MODEL]) pipeline_summary spacy_empty
    (Ok "scanned text") (Ok ["scanned"; "text"]) whisper_hello
    [f32 3 0; f32 4 0] float_small.

(** Both embedders produce a vector of two tiny components, [2^-100] each:
    small but ordinary [float32] values, whose squares are below the
    smallest [float32]. *)
Definition env_tiny_features : Env :=
  sample_env all_loads_succeed pipeline_summary spacy_empty
    (Ok "scanned text") (Ok ["scanned"; "text"]) whisper_hello
    [f32 1 (-100); f32 1 (-100)] float_small.

(** Both embedders produce the zero vector. *)
Definition env_zero_features : Env :=
  sample_env all_loads_succeed pipeline_summary spacy_empty
    (Ok "scanned text") (Ok ["scanned"; "text"]) whisper_hello
    [f32 0 0; f32 0 0] float_small.

Definition sample_bytes_audio : bytes := [x52; x49; x46; x46].

(** A second family of environments: the PDF, the two table parsers, the
    audio reader and the pipelines are chosen by the arguments; everything
    else answers as in [env_healthy]. *)
Definition sample_env_io
  (pipe : handle -> string -> list (string * pyval) -> result pyval)
  (spacy : handle -> string -> result doc)
  (pdf : result (list (result (option string))))
  (csv excel : result dataframe)
  (sound : result (bytes * Z))
  (whisper : result pyval) : Env :=
  {| image := bytes;
     clip_inputs := bytes;
     audio := bytes;
     audio_inputs := bytes;
     load_error := all_loads_succeed;
     pipeline_run := pipe;
     spacy_run := spacy;
     yake_extract_keywords :=
       fun _ _ => Ok [("model lifecycle", 0x1p-5%float);
                      ("error envelope", 0x1p-4%float)];
     embedder_encode := fun _ ts => Ok (map (fun _ => [1%float]) ts);
     pdf_open := fun _ => pdf;
     image_open := fun b => Ok b;
     image_convert := fun i _ => Ok i;
     pytesseract_image_to_string := fun _ => Ok "scanned text";
     easyocr_readtext := fun _ _ => Ok ["scanned"; "text"];
     whisper_transcribe := fun _ _ => whisper;
     pd_read_csv := fun _ => csv;
     pd_read_excel := fun _ => excel;
     clip_processor_run := fun _ i => Ok i;
     clip_image_features := fun _ _ => Ok [f32 3 0; f32 4 0];
     sf_read := fun _ => sound;
     audio_multichannel := fun _ => false;
     audio_mean_axis1 := fun a => a;
     wav2vec2_processor_run :=
       fun _ _ _ => Raise (Exn "ValueError" "sampling rate mismatch");
     wav2vec2_features := fun _ _ => Ok [f32 3 0; f32 4 0];
     float_of_str := float_small;
     float_of_int := fun _ => Ok 0%float |}.

(** The pipelines answer with an empty list. *)
Definition pipeline_empty : handle -> string -> list (string * pyval)
                            -> result pyval :=
  fun _ _ _ => Ok (PList []).

(** spaCy finds two entities, neither linked to a knowledge base. *)
Definition spacy_unlinked : handle -> string -> result doc :=
  fun _ _ =>
    Ok {| ents := [ {| ent_text := "Paris"; kb_id_ := Some "";
                       label_ := "GPE" |};
                    {| ent_text := "Monday"; kb_id_ := None;
                       label_ := "DATE" |} ];
          coref_resolved := None;
          coref_clusters := None |}.

Definition pdf_three_pages : result (list (result (option string))) :=
  Ok [Ok (Some "first"); Ok None; Ok (Some "third")].

Definition pdf_broken_second_page : result (list (result (option string))) :=
  Ok [Ok (Some "first"); Raise (Exn "PDFSyntaxError" "bad xref");
      Ok (Some "third")].

(** Reading the audio works; the Wav2Vec2 processor raises afterwards. *)
Definition env_processor_raises : Env :=
  sample_env_io pipeline_summary spacy_unlinked pdf_three_pages
    (Ok table_a_b) (Ok table_a_b) (Ok (sample_bytes_audio, 16000))
    (Ok (PDict [("language", PStr "en")])).

(** The pipelines return nothing, the second PDF page is broken, and the
    spreadsheet parser raises. *)
Definition env_edge_cases : Env :=
  sample_env_io pipeline_empty spacy_unlinked pdf_broken_second_page
    (Ok table_a_b)
    (Raise (Exn "ValueError" "Excel file format cannot be determined"))
    (Raise (Exn "LibsndfileError" "Format not recognised"))
    whisper_hello.

Definition world0 : world := {| fs := []; tmp_seq := 0 |}.

Definition sample_text (t : option string) : TextRequest :=
  {| text := "The service loads its models at start-up.";
     type := t;
     context := None |}.

Definition sample_bytes : bytes := [x61; x2c; x62; x0a; x31; x2c; x32; x0a].

Definition upload (hs : list (string * string)) : Request :=
  {| body := sample_bytes; headers := hs |}.

(** The registry a healthy start-up leaves behind. *)
Definition registry_healthy : registry :=
  {| ner_pipeline := Loaded NER_MODEL;
     sentiment_pipeline := Loaded SENTIMENT_MODEL;
     summarizer := Loaded SUMMARY_MODEL;
     paraphrase_pipeline := Loaded PARAPHRASE_MODEL;
     intent_pipeline := Loaded INTENT_MODEL;
     nlp_spacy := Loaded SPACY_MODEL;
     kw_extractor := Loaded YAKE_EXTRACTOR;
     embedder := Some (Loaded EMBEDDER_MODEL);
     clip_model := Some (Loaded CLIP_MODEL);
     clip_processor := Some (Loaded CLIP_PROCESSOR);
     wav2vec2_model := Some (Loaded WAV2VEC2_MODEL);
     wav2vec2_processor := Some (Loaded WAV2VEC2_PROCESSOR) |}.

(** The registry when only the spaCy model failed to load. *)
Definition registry_blank_spacy : registry :=
  {| ner_pipeline := Loaded NER_MODEL;
     sentiment_pipeline := Loaded SENTIMENT_MODEL;
     summarizer := Loaded SUMMARY_MODEL;
     paraphrase_pipeline := Loaded PARAPHRASE_MODEL;
     intent_pipeline := Loaded INTENT_MODEL;
     nlp_spacy := Loaded SPACY_BLANK;
     kw_extractor := Loaded YAKE_EXTRACTOR;
     embedder := Some (Loaded EMBEDDER_MODEL);
     clip_model := Some (Loaded CLIP_MODEL);
     clip_processor := Some (Loaded CLIP_PROCESSOR);
     wav2vec2_model := Some (Loaded WAV2VEC2_MODEL);
     wav2vec2_processor := Some (Loaded WAV2VEC2_PROCESSOR) |}.

(** The registry when the three guarded loads failed. *)
Definition registry_degraded : registry :=
  {| ner_pipeline := Loaded NER_MODEL;
     sentiment_pipeline := Loaded SENTIMENT_MODEL;
     summarizer := Loaded SUMMARY_MODEL;
     paraphrase_pipeline := Loaded PARAPHRASE_MODEL;
     intent_pipeline := Loaded INTENT_MODEL;
     nlp_spacy := Loaded SPACY_MODEL;
     kw_extractor := Loaded YAKE_EXTRACTOR;
     embedder := None;
     clip_model := None;
     clip_processor := None;
     wav2vec2_model := None;
     wav2vec2_processor := None |}.

(** The models a request makes the process initialise while it is handled:
    Whisper on every transcription, an EasyOCR reader whenever the image opens
    and Tesseract raises on it, nothing anywhere else. *)
Definition initialised_per_request (env : Env) (r : api_request)
  : list string :=
  match r with
  | PostTranscribe _ => [WHISPER_MODEL]
  | PostOcr req =>
      match image_open env (body req) with
      | Ok img =>
          match pytesseract_image_to_string env img with
          | Ok _ => []
          | Raise _ => [EASYOCR_READER]
          end
      | Raise _ => []
      end
  | _ => []
  end.

(* ------------------------------------------------------------------------- *)
(** ** Vocabulary of the properties *)

(** [m] initialises exactly the models [l], whatever the state it starts in
    and whether it returns or raises. *)
Definition emits_loads {A} (m : M A) (l : list string) : Prop :=
  forall w, loads (events_of (m w)) = l.

Abbreviation no_loads m := (emits_loads m []).

(** [l1] is [l2] with some elements left out. *)
Inductive subseq {A : Type} : list A -> list A -> Prop :=
| subseq_nil : subseq [] []
| subseq_skip x l1 l2 : subseq l1 l2 -> subseq l1 (x :: l2)
| subseq_keep x l1 l2 : subseq l1 l2 -> subseq (x :: l1) (x :: l2).

(** [m] initialises models out of [l] only, in that order, each at most as
    often as it occurs in [l]. *)
Definition loads_within {A} (m : M A) (l : list string) : Prop :=
  forall w, subseq (loads (events_of (m w))) l.

(** The initialisations of the module-level code, in the order of the
    source. *)
Definition STARTUP_ORDER : list string :=
  [NER_MODEL; SENTIMENT_MODEL; SUMMARY_MODEL; PARAPHRASE_MODEL; INTENT_MODEL;
   SPACY_MODEL; SPACY_BLANK; YAKE_EXTRACTOR; EMBEDDER_MODEL;
   CLIP_MODEL; CLIP_PROCESSOR; WAV2VEC2_MODEL; WAV2VEC2_PROCESSOR].

(** Decidable absence of duplicates, for the concrete lists of names. *)
Fixpoint distinct (l : list string) : bool :=
  match l with
  | [] => true
  | x :: rest => negb (existsb (String.eqb x) rest) && distinct rest
  end.

(** Did loading the models of [c] raise during start-up?  The processor of a
    pair is only attempted when its model loaded. *)
Definition failed_at_startup (env : Env) (c : guarded_capability) : bool :=
  let failed name :=
    match load_error env name with Some _ => true | None => false end in
  match c with
  | TextEmbedding => failed EMBEDDER_MODEL
  | ImageEmbedding => failed CLIP_MODEL || failed CLIP_PROCESSOR
  | AudioEmbedding => failed WAV2VEC2_MODEL || failed WAV2VEC2_PROCESSOR
  end.

(** The success dict of [/ocr]. *)
Definition ocr_success (txt method : string) : pyval :=
  PDict [("text", PStr txt); ("metadata", PDict [("ocr_method", PStr method)])].

(** The success dict of [/table]. *)
Definition table_success (df : dataframe) : pyval :=
  PDict [("text", PStr (df_to_csv df));
         ("metadata",
           PDict [("columns", PList (map PStr (df_columns df)));
                  ("rows", PInt (df_len df))])].

(** The success dict of [/image-embed] and [/audio-embed]. *)
Definition embedding_response (v : list float) : pyval :=
  PDict [("embedding", PList (map PFloat v))].

Inductive embedding_route : Type := ImageRoute | AudioRoute.

Definition embedding_handler (k : embedding_route)
  : Env -> registry -> Request -> M pyval :=
  match k with
  | ImageRoute => image_embed
  | AudioRoute => audio_embed
  end.

(** The request gets as far as the normalisation with the feature vector
    [feats]: the models are loaded and every library call before that step
    returns. *)
Inductive reaches_normalisation (env : Env) (reg : registry) (req : Request)
  : embedding_route -> list float32 -> Prop :=
| image_reaches model processor opened img inputs feats :
    clip_model reg = Some model ->
    clip_processor reg = Some processor ->
    image_open env (body req) = Ok opened ->
    image_convert env opened "RGB" = Ok img ->
    clip_processor_run env processor img = Ok inputs ->
    clip_image_features env model inputs = Ok feats ->
    reaches_normalisation env reg req ImageRoute feats
| audio_reaches model processor speech rate inputs feats :
    wav2vec2_model reg = Some model ->
    wav2vec2_processor reg = Some processor ->
    sf_read env (body req) = Ok (speech, rate) ->
    wav2vec2_processor_run env processor
      (if audio_multichannel env speech then audio_mean_axis1 env speech
       else speech) rate = Ok inputs ->
    wav2vec2_features env model inputs = Ok feats ->
    reaches_normalisation env reg req AudioRoute feats.

(** The prefix of the [logger.error] line in the [except] clause of each
    handler. *)
Definition error_label (r : api_request) : string :=
  match r with
  | GetHealth => ""
  | PostNer _ => "NER error: "
  | PostSentiment _ => "Sentiment error: "
  | PostSummarize _ => "Summarize error: "
  | PostIntent _ => "Intent error: "
  | PostKeywords _ => "Keywords error: "
  | PostCoref _ => "Coref error: "
  | PostParaphrase _ => "Paraphrase error: "
  | PostEntityLinking _ => "Entity linking error: "
  | PostEmbed _ => "Embedding error: "
  | PostPdf _ => "PDF extraction error: "
  | PostOcr _ => "OCR error: "
  | PostTranscribe _ => "Whisper transcription error: "
  | PostTable _ => "Table parsing error: "
  | PostImageEmbed _ => "Image embedding error: "
  | PostAudioEmbed _ => "Audio embedding error: "
  end.

(** The exception a call raised, if it raised. *)
Definition raised_exn {A} (r : result A) : option exn :=
  match r with Raise e => Some e | Ok _ => None end.

(** The first model or library call a handler makes: its name in the events,
    its keyword arguments, and the exception it raises on this request, if
    any.  [None] for [/health], for an endpoint whose handle is not loaded,
    and for the three endpoints that stage the upload first. *)
Definition first_call (env : Env) (reg : registry) (r : api_request)
  : option (string * list (string * pyval) * option exn) :=
  match r with
  | PostNer req =>
      Some ("ner_pipeline", [],
            raised_exn (pipeline_run env (ner_pipeline reg) (text req) []))
  | PostSentiment req =>
      Some ("sentiment_pipeline", [],
            raised_exn
              (pipeline_run env (sentiment_pipeline reg) (text req) []))
  | PostSummarize req =>
      if is_extractive req
      then Some ("kw_extractor.extract_keywords", [],
                 raised_exn
                   (yake_extract_keywords env (kw_extractor reg) (text req)))
      else Some ("summarizer", SUMMARIZER_KWARGS,
                 raised_exn
                   (pipeline_run env (summarizer reg) (text req)
                      SUMMARIZER_KWARGS))
  | PostIntent req =>
      Some ("intent_pipeline", [],
            raised_exn (pipeline_run env (intent_pipeline reg) (text req) []))
  | PostKeywords req =>
      Some ("kw_extractor.extract_keywords", [],
            raised_exn
              (yake_extract_keywords env (kw_extractor reg) (text req)))
  | PostCoref req =>
      Some ("nlp_spacy", [],
            raised_exn (spacy_run env (nlp_spacy reg) (text req)))
  | PostParaphrase req =>
      Some ("paraphrase_pipeline", PARAPHRASE_KWARGS,
            raised_exn
              (pipeline_run env (paraphrase_pipeline reg)
                 ("paraphrase: " ++ text req) PARAPHRASE_KWARGS))
  | PostEntityLinking req =>
      Some ("nlp_spacy", [],
            raised_exn (spacy_run env (nlp_spacy reg) (text req)))
  | PostEmbed req =>
      match embedder reg with
      | Some h =>
          Some ("embedder.encode", [("convert_to_numpy", PBool true)],
                raised_exn (embedder_encode env h (texts req)))
      | None => None
      end
  | PostPdf req =>
      Some ("pdfplumber.open", [], raised_exn (pdf_open env (body req)))
  | PostOcr req =>
      Some ("Image.open", [], raised_exn (image_open env (body req)))
  | PostImageEmbed req =>
      match clip_model reg, clip_processor reg with
      | Some _, Some _ =>
          Some ("Image.open", [], raised_exn (image_open env (body req)))
      | _, _ => None
      end
  | _ => None
  end.

(** [page.extract_text() or ''] *)
Definition page_text (t : option string) : string :=
  match t with Some s => s | None => "" end.

(** The dict [/entity-linking] builds for an entity without a link. *)
Definition unlinked_entity (e : ent) : pyval :=
  PDict [("mention", PStr (ent_text e));
         ("entity_id", PStr "");
         ("entity_label", PStr (label_ e));
         ("confidence", PFloat 1%float)].

(** The loads without which the module cannot be imported: the five
    pipelines, spaCy (the model or else the blank pipeline) and the keyword
    extractor. *)
Definition essential_loads_ok (env : Env) : bool :=
  let ok name :=
    match load_error env name with Some _ => false | None => true end in
  ok NER_MODEL && ok SENTIMENT_MODEL && ok SUMMARY_MODEL
  && ok PARAPHRASE_MODEL && ok INTENT_MODEL
  && (ok SPACY_MODEL || ok SPACY_BLANK) && ok YAKE_EXTRACTOR.

(** Did the call raise? *)
Definition raised {A} (r : result A) : bool :=
  match r with Raise _ => true | Ok _ => false end.

(** Loading [name] raises. *)
Definition load_raises (env : Env) (name : string) : bool :=
  match load_error env name with Some _ => true | None => false end.

Arguments tmp_name : simpl never.

(* ------------------------------------------------------------------------- *)
(** * Properties *)

(** ** Events of composed computations *)

Lemma loads_app (t1 t2 : list event) :
  loads (t1 ++ t2)%list = (loads t1 ++ loads t2)%list.
Proof.
  induction t1 as [|ev t1 IH]; simpl; [reflexivity|].
  destruct ev; simpl; rewrite ?IH; reflexivity.
Qed.

Section LoadAccounting.
Context {A B : Type}.

Lemma no_loads_ret (a : A) : no_loads (ret a).
Proof. intros w; reflexivity. Qed.

Lemma no_loads_raise (e : exn) : no_loads (@raise A e).
Proof. intros w; reflexivity. Qed.

Lemma no_loads_lift (r : result A) : no_loads (lift r).
Proof. intros w; reflexivity. Qed.

Lemma no_loads_call callee kwargs (r : result A) :
  no_loads (call callee kwargs r).
Proof. intros w; destruct r; reflexivity. Qed.

Lemma no_loads_call_on_file callee kwargs (f : bytes -> result A) path :
  no_loads (call_on_file callee kwargs f path).
Proof.
  intros w. unfold call_on_file.
  destruct (fs_lookup (fs w) path); apply no_loads_call.
Qed.

(** Sequencing after a computation that initialises nothing. *)
Lemma emits_loads_bind (m : M A) (k : A -> M B) (l : list string) :
  emits_loads m l -> (forall a, no_loads (k a)) -> emits_loads (bind m k) l.
Proof.
  intros Hm Hk w. specialize (Hm w). unfold bind, events_of in *.
  destruct (m w) as [[[a|e] w1] t1]; simpl in *; [|assumption].
  specialize (Hk a w1). unfold events_of in Hk.
  destruct (k a w1) as [[r2 w2] t2]; simpl in *.
  rewrite loads_app, Hm, Hk, app_nil_r. reflexivity.
Qed.

Lemma emits_loads_try_except (m : M A) (h : exn -> M A) (l : list string) :
  emits_loads m l -> (forall e, no_loads (h e)) ->
  emits_loads (try_except m h) l.
Proof.
  intros Hm Hh w. specialize (Hm w). unfold try_except, events_of in *.
  destruct (m w) as [[[a|e] w1] t1]; simpl in *; [assumption|].
  specialize (Hh e w1). unfold events_of in Hh.
  destruct (h e w1) as [[r2 w2] t2]; simpl in *.
  rewrite loads_app, Hm, Hh, app_nil_r. reflexivity.
Qed.
End LoadAccounting.

Lemma no_loads_log_info msg : no_loads (log_info msg).
Proof. intros w; reflexivity. Qed.

Lemma no_loads_log_error msg : no_loads (log_error msg).
Proof. intros w; reflexivity. Qed.

Lemma no_loads_named_temporary_file suffix data :
  no_loads (named_temporary_file suffix data).
Proof.
  intros w. unfold named_temporary_file, events_of.
  destruct (tmp_name_fits suffix); reflexivity.
Qed.

Lemma no_loads_os_remove path : no_loads (os_remove path).
Proof.
  intros w. unfold os_remove, events_of.
  destruct (fs_lookup (fs w) path); reflexivity.
Qed.

Lemma emits_loads_load env name : emits_loads (load env name) [name].
Proof.
  intros w. unfold load, bind, emit, events_of.
  destruct (load_error env name); reflexivity.
Qed.

Create HintDb quiet.
#[local] Hint Resolve no_loads_ret no_loads_raise no_loads_lift no_loads_call
  no_loads_call_on_file no_loads_log_info no_loads_log_error
  no_loads_named_temporary_file no_loads_os_remove : quiet.

(** Walks through a handler body: sequencing, [try], and the tests it
    branches on. *)
Ltac quiet :=
  repeat first
    [ progress auto with quiet
    | apply emits_loads_bind
    | apply emits_loads_try_except
    | match goal with
      | |- forall _, _ => intro
      | |- emits_loads (if ?b then _ else _) _ => destruct b
      | |- emits_loads (match ?x with _ => _ end) _ => destruct x
      end ].

Lemma no_loads_except_500 label e : no_loads (except_500 label e).
Proof. unfold except_500. quiet. Qed.

Lemma no_loads_request_log label txt : no_loads (request_log label txt).
Proof. unfold request_log. quiet. Qed.

Lemma no_loads_extract_pages pages : no_loads (extract_pages pages).
Proof. induction pages as [|p pages IH]; simpl; quiet. Qed.

Lemma no_loads_read_table env ext path : no_loads (read_table env ext path).
Proof. unfold read_table. quiet. Qed.

#[local] Hint Resolve no_loads_except_500 no_loads_request_log
  no_loads_extract_pages no_loads_read_table : quiet.

(** ** Where models are initialised *)

Lemma ocr_image_loads env req :
  emits_loads (ocr_image env req) (initialised_per_request env (PostOcr req)).
Proof.
  intros w. unfold ocr_image, initialised_per_request.
  unfold try_except, bind, call, load, emit, lift, ret, raise, except_500,
    log_error, events_of.
  destruct (image_open env (body req)) as [img|e]; simpl; [|reflexivity].
  destruct (pytesseract_image_to_string env img) as [t|e]; simpl;
    [reflexivity|].
  destruct (load_error env EASYOCR_READER) as [e'|]; simpl; [reflexivity|].
  destruct (easyocr_readtext env (Loaded EASYOCR_READER) img); reflexivity.
Qed.

Lemma transcribe_audio_loads env req :
  emits_loads (transcribe_audio env req) [WHISPER_MODEL].
Proof.
  unfold transcribe_audio.
  apply emits_loads_try_except; [|quiet].
  intros w. unfold bind at 1. unfold named_temporary_file at 1.
  change (tmp_name_fits ".wav") with true. cbv iota.
  set (path := tmp_name (tmp_seq w) ".wav").
  set (w1 := {| fs := (path, body req) :: fs w; tmp_seq := S (tmp_seq w) |}).
  assert (H : emits_loads
                (model <- load env WHISPER_MODEL ;;
                 result <- call_on_file "model.transcribe" []
                             (whisper_transcribe env model) path ;;
                 os_remove path ;;;
                 txt <- lift (getitem_str result "text") ;;
                 lang <- lift (dict_get result "language" (PStr "en")) ;;
                 ret (PDict [("text", txt);
                             ("metadata", PDict [("language", lang)])]))
                [WHISPER_MODEL]).
  { apply emits_loads_bind; [apply emits_loads_load|quiet]. }
  specialize (H w1). unfold events_of in *.
  match goal with
  | |- context [bind ?m ?k w1] => destruct (bind m k w1) as [[r w2] t2]
  end.
  simpl in *. exact H.
Qed.

Lemma app_loads env reg r :
  emits_loads (app env reg r) (initialised_per_request env r).
Proof.
  destruct r; simpl;
    try apply ocr_image_loads; try apply transcribe_audio_loads;
    unfold health, ner, sentiment, summarize, intent, keywords, coref,
      paraphrase, entity_linking, embed, extract_pdf, parse_table,
      image_embed, audio_embed;
    quiet.
Qed.

Lemma distinct_NoDup (l : list string) : distinct l = true -> NoDup l.
Proof.
  induction l as [|x rest IH]; simpl; intros H; [constructor|].
  apply andb_true_iff in H as [Hx Hr]. constructor; [|auto].
  intros Hin. apply negb_true_iff in Hx.
  assert (existsb (String.eqb x) rest = true) as E.
  { apply existsb_exists. exists x. split; [assumption|apply String.eqb_refl]. }
  congruence.
Qed.

(** *** Subsequences *)

Lemma subseq_nil_l {A} (l : list A) : subseq [] l.
Proof. induction l; constructor; assumption. Qed.

Lemma subseq_refl {A} (l : list A) : subseq l l.
Proof. induction l; constructor; assumption. Qed.

Lemma subseq_app {A} (a1 a2 b1 b2 : list A) :
  subseq a1 b1 -> subseq a2 b2 -> subseq (a1 ++ a2)%list (b1 ++ b2)%list.
Proof.
  intros H1 H2. induction H1; simpl; try constructor; assumption.
Qed.

Lemma subseq_In {A} (l1 l2 : list A) x : subseq l1 l2 -> In x l1 -> In x l2.
Proof.
  intros H. induction H; simpl; intros Hin; auto.
  destruct Hin; auto.
Qed.

Lemma subseq_NoDup {A} (l1 l2 : list A) : subseq l1 l2 -> NoDup l2 -> NoDup l1.
Proof.
  intros H. induction H; intros Hnd.
  - constructor.
  - inversion Hnd; auto.
  - inversion Hnd; subst. constructor; [|auto].
    intros Hin. eauto using subseq_In.
Qed.

Section LoadOrder.
Context {A B : Type}.

Lemma loads_within_quiet (m : M A) : no_loads m -> loads_within m [].
Proof. intros H w. rewrite H. constructor. Qed.

Lemma loads_within_bind (m : M A) (k : A -> M B) l1 l2 :
  loads_within m l1 -> (forall a, loads_within (k a) l2) ->
  loads_within (bind m k) (l1 ++ l2).
Proof.
  intros Hm Hk w. specialize (Hm w). unfold bind, events_of in *.
  destruct (m w) as [[[a|e] w1] t1]; simpl in *.
  - specialize (Hk a w1). unfold events_of in Hk.
    destruct (k a w1) as [[r2 w2] t2]; simpl in *.
    rewrite loads_app. apply subseq_app; assumption.
  - rewrite <- (app_nil_r (loads t1)).
    apply subseq_app; [assumption|apply subseq_nil_l].
Qed.

Lemma loads_within_try_except (m : M A) (h : exn -> M A) l1 l2 :
  loads_within m l1 -> (forall e, loads_within (h e) l2) ->
  loads_within (try_except m h) (l1 ++ l2).
Proof.
  intros Hm Hh w. specialize (Hm w). unfold try_except, events_of in *.
  destruct (m w) as [[[a|e] w1] t1]; simpl in *.
  - rewrite <- (app_nil_r (loads t1)).
    apply subseq_app; [assumption|apply subseq_nil_l].
  - specialize (Hh e w1). unfold events_of in Hh.
    destruct (h e w1) as [[r2 w2] t2]; simpl in *.
    rewrite loads_app. apply subseq_app; assumption.
Qed.
End LoadOrder.

Lemma loads_within_load env name : loads_within (load env name) [name].
Proof. intros w. rewrite emits_loads_load. apply subseq_refl. Qed.

Lemma loads_within_load_spacy env :
  loads_within (load_spacy env) [SPACY_MODEL; SPACY_BLANK].
Proof.
  apply (loads_within_try_except _ _ [SPACY_MODEL] [SPACY_BLANK]).
  - apply loads_within_load.
  - intros e. apply loads_within_load.
Qed.

Lemma loads_within_load_embedder env :
  loads_within (load_embedder env) [EMBEDDER_MODEL].
Proof.
  apply (loads_within_try_except _ _ [EMBEDDER_MODEL] []).
  - apply (loads_within_bind _ _ [EMBEDDER_MODEL] []).
    + apply loads_within_load.
    + intros h. apply loads_within_quiet. quiet.
  - intros e. apply loads_within_quiet. quiet.
Qed.

Lemma loads_within_load_pair env label m p :
  loads_within (load_pair env label m p) [m; p].
Proof.
  apply (loads_within_try_except _ _ [m; p] []).
  - apply (loads_within_bind _ _ [m] [p]); [apply loads_within_load|].
    intros hm. apply (loads_within_bind _ _ [p] []);
      [apply loads_within_load|].
    intros hp. apply loads_within_quiet. quiet.
  - intros e. apply loads_within_quiet. quiet.
Qed.

Lemma loads_within_startup env : loads_within (startup env) STARTUP_ORDER.
Proof.
  unfold startup.
  apply (loads_within_bind _ _ [NER_MODEL]); [apply loads_within_load|intros ?].
  apply (loads_within_bind _ _ [SENTIMENT_MODEL]);
    [apply loads_within_load|intros ?].
  apply (loads_within_bind _ _ [SUMMARY_MODEL]);
    [apply loads_within_load|intros ?].
  apply (loads_within_bind _ _ [PARAPHRASE_MODEL]);
    [apply loads_within_load|intros ?].
  apply (loads_within_bind _ _ [INTENT_MODEL]);
    [apply loads_within_load|intros ?].
  apply (loads_within_bind _ _ [SPACY_MODEL; SPACY_BLANK]);
    [apply loads_within_load_spacy|intros ?].
  apply (loads_within_bind _ _ [YAKE_EXTRACTOR]);
    [apply loads_within_load|intros ?].
  apply (loads_within_bind _ _ [EMBEDDER_MODEL]);
    [apply loads_within_load_embedder|intros ?].
  apply (loads_within_bind _ _ [CLIP_MODEL; CLIP_PROCESSOR]);
    [apply loads_within_load_pair|intros ?].
  apply (loads_within_bind _ _ [WAV2VEC2_MODEL; WAV2VEC2_PROCESSOR] []);
    [apply loads_within_load_pair|intros ?].
  apply loads_within_quiet. quiet.
Qed.

Lemma startup_loads_distinct env w :
  NoDup (loads (events_of (startup env w))).
Proof.
  apply (subseq_NoDup _ STARTUP_ORDER).
  - apply loads_within_startup.
  - apply distinct_NoDup. vm_compute. reflexivity.
Qed.

(** C3 (amended).  Start-up initialises no model twice.  While a request is
    handled, the process initialises exactly the models listed by
    [initialised_per_request]: the Whisper model on every [/transcribe]
    request, an EasyOCR reader on every [/ocr] request whose image opens and
    on which Tesseract raises, and nothing on any other request. *)
Theorem model_initialisation_sites (env : Env) :
  (forall w, NoDup (loads (events_of (startup env w)))) /\
  (forall reg r w,
     loads (events_of (app env reg r w)) = initialised_per_request env r).
Proof.
  split.
  - intros w. apply startup_loads_distinct.
  - intros reg r w. apply app_loads.
Qed.

(** C3 (as stated) fails: in a process that started cleanly and then serves
    two transcription requests, the request-handling phase loads the Whisper
    model twice. *)
Lemma whisper_loaded_on_each_transcription :
  loads (request_phase_events env_healthy
           [PostTranscribe (upload []); PostTranscribe (upload [])] world0)
  = [WHISPER_MODEL; WHISPER_MODEL].
Proof. vm_compute. reflexivity. Qed.

(** ** The error return and the HTTP response *)

(** A handler's error return is a tuple, which the framework encodes as a
    two-element JSON array under its default status. *)
Lemma error_return_encoding (msg : string) :
  fastapi_response (Ok (error_500 msg))
  = {| status_code := 200;
       content := JArr [JObj [("error", JStr msg)]; JInt 500] |}.
Proof. reflexivity. Qed.

(** C1 at a failing input.  The NER pipeline raises on the request; the
    handler catches it and returns [({"error": ...}, 500)]; the response that
    goes out has status 200, and its body is an array, not an object with an
    [error] field. *)
Theorem ner_error_served_with_status_200 :
  serve env_pipeline_raises registry_healthy (PostNer (sample_text None)) world0
  = {| status_code := 200;
       content := JArr [JObj [("error", JStr "CUDA out of memory")];
                        JInt 500] |}
  /\ is_success
       (status_code
          (serve env_pipeline_raises registry_healthy
             (PostNer (sample_text None)) world0)) = true.
Proof. split; vm_compute; reflexivity. Qed.

(** ** Temporary files *)

Lemma fs_lookup_removed files path : fs_lookup (fs_remove files path) path = None.
Proof.
  induction files as [|[p b] rest IH]; simpl; [reflexivity|].
  destruct (String.eqb p path) eqn:E; [exact IH|].
  simpl. rewrite E. exact IH.
Qed.

(** The path on which the deletion does happen: when the parser returns, the
    staged file is gone at the end of the request. *)
Lemma staged_table_removed_on_success env req w df :
  table_ext req = ".csv" ->
  pd_read_csv env (body req) = Ok df ->
  file_exists (world_of (parse_table env req w))
    (tmp_name (tmp_seq w) ".csv") = false.
Proof.
  intros Hext Hread. unfold parse_table. rewrite Hext.
  unfold read_table. simpl String.eqb.
  unfold try_except, bind, call, call_on_file, emit, lift, ret,
    named_temporary_file, os_remove, world_of, file_exists. simpl.
  rewrite !String.eqb_refl. simpl. rewrite Hread. simpl.
  rewrite !String.eqb_refl. simpl.
  rewrite fs_lookup_removed. reflexivity.
Qed.

(** C2 at two failing inputs.  A table upload named [Report.TXT] is staged
    as [/tmp/tmp0.txt] and rejected as unsupported; an audio upload is staged
    as [/tmp/tmp0.wav] and Whisper raises on it.  In both runs the handler
    returns its error result, no [Removed] event occurs, and the staged file
    still exists when the request is over. *)
Theorem temp_file_left_behind_on_failure :
  app env_healthy registry_healthy
    (PostTable (upload [("x-file-name", "Report.TXT")])) world0
  = (Ok (error_500 "Unsupported table file type"),
     {| fs := [("/tmp/tmp0.txt", sample_bytes)]; tmp_seq := 1 |},
     [TmpCreated "/tmp/tmp0.txt";
      LogError "Table parsing error: Unsupported table file type"])
  /\
  app env_whisper_raises registry_healthy (PostTranscribe (upload [])) world0
  = (Ok (error_500 "Failed to load audio"),
     {| fs := [("/tmp/tmp0.wav", sample_bytes)]; tmp_seq := 1 |},
     [TmpCreated "/tmp/tmp0.wav"; Load WHISPER_MODEL;
      Invoke "model.transcribe" [];
      LogError "Whisper transcription error: Failed to load audio"]).
Proof. split; vm_compute; reflexivity. Qed.

(** ** Capabilities that failed to load *)

(** *** Reading a start-up that returned *)

Lemma bind_ok_inv {A B} (m : M A) (k : A -> M B) w b w' t :
  bind m k w = (Ok b, w', t) ->
  exists a w1 t1 t2,
    m w = (Ok a, w1, t1) /\ k a w1 = (Ok b, w', t2) /\ t = (t1 ++ t2)%list.
Proof.
  unfold bind. destruct (m w) as [[[a|e] w1] t1]; [|discriminate].
  destruct (k a w1) as [[r2 w2] t2] eqn:Hk. intros H. inversion H; subst.
  exists a, w1, t1, t2. auto.
Qed.

Lemma load_spacy_ok env w h w' t :
  load_spacy env w = (Ok h, w', t) ->
  h = Loaded (match load_error env SPACY_MODEL with
              | Some _ => SPACY_BLANK
              | None => SPACY_MODEL
              end).
Proof.
  unfold load_spacy, try_except, load, bind, emit, ret, raise.
  destruct (load_error env SPACY_MODEL); simpl.
  - destruct (load_error env SPACY_BLANK); simpl; intros H; inversion H;
      reflexivity.
  - intros H; inversion H; reflexivity.
Qed.

Lemma load_embedder_ok env w r w' t :
  load_embedder env w = (Ok r, w', t) ->
  r = match load_error env EMBEDDER_MODEL with
      | Some _ => None
      | None => Some (Loaded EMBEDDER_MODEL)
      end.
Proof.
  unfold load_embedder, try_except, load, bind, emit, ret, raise, log_error.
  destruct (load_error env EMBEDDER_MODEL); simpl; intros H; inversion H;
    reflexivity.
Qed.

Lemma load_pair_ok env label m p w r w' t :
  load_pair env label m p w = (Ok r, w', t) ->
  r = match load_error env m, load_error env p with
      | None, None => (Some (Loaded m), Some (Loaded p))
      | _, _ => (None, None)
      end.
Proof.
  unfold load_pair, try_except, load, bind, emit, ret, raise, log_error.
  destruct (load_error env m); simpl;
    [intros H; inversion H; reflexivity|].
  destruct (load_error env p); simpl; intros H; inversion H; reflexivity.
Qed.

(** The registry of a start-up that returned, field by field. *)
Lemma startup_ok_registry env w0 reg w1 t :
  startup env w0 = (Ok reg, w1, t) ->
  nlp_spacy reg
  = Loaded (match load_error env SPACY_MODEL with
            | Some _ => SPACY_BLANK
            | None => SPACY_MODEL
            end)
  /\ embedder reg
     = match load_error env EMBEDDER_MODEL with
       | Some _ => None
       | None => Some (Loaded EMBEDDER_MODEL)
       end
  /\ (clip_model reg, clip_processor reg)
     = match load_error env CLIP_MODEL, load_error env CLIP_PROCESSOR with
       | None, None => (Some (Loaded CLIP_MODEL), Some (Loaded CLIP_PROCESSOR))
       | _, _ => (None, None)
       end
  /\ (wav2vec2_model reg, wav2vec2_processor reg)
     = match load_error env WAV2VEC2_MODEL,
             load_error env WAV2VEC2_PROCESSOR with
       | None, None =>
           (Some (Loaded WAV2VEC2_MODEL), Some (Loaded WAV2VEC2_PROCESSOR))
       | _, _ => (None, None)
       end.
Proof.
  unfold startup. intros H.
  apply bind_ok_inv in H as (ner & wa & ta & ta' & _ & H & _).
  apply bind_ok_inv in H as (sent & wb & tb & tb' & _ & H & _).
  apply bind_ok_inv in H as (summ & wc & tc & tc' & _ & H & _).
  apply bind_ok_inv in H as (para & wd & td & td' & _ & H & _).
  apply bind_ok_inv in H as (intn & we & te & te' & _ & H & _).
  apply bind_ok_inv in H as (spc & wf & tf & tf' & Hspc & H & _).
  apply bind_ok_inv in H as (kw & wg & tg & tg' & _ & H & _).
  apply bind_ok_inv in H as (emb & wh & th & th' & Hemb & H & _).
  apply bind_ok_inv in H as (clip & wi & ti & ti' & Hclip & H & _).
  apply bind_ok_inv in H as (wav & wj & tj & tj' & Hwav & H & _).
  apply load_spacy_ok in Hspc. apply load_embedder_ok in Hemb.
  apply load_pair_ok in Hclip. apply load_pair_ok in Hwav.
  unfold ret in H. inversion H; subst reg; simpl.
  rewrite <- Hspc, <- Hemb, <- Hclip, <- Hwav.
  repeat split; try reflexivity.
  - destruct clip; reflexivity.
  - destruct wav; reflexivity.
Qed.

(** Start-up leaves [None] behind exactly for the capabilities whose loading
    raised. *)
Lemma startup_records_failure env w0 reg w1 t c :
  startup env w0 = (Ok reg, w1, t) ->
  unloaded reg c = failed_at_startup env c.
Proof.
  intros H.
  destruct (startup_ok_registry _ _ _ _ _ H) as (_ & Hemb & Hclip & Hwav).
  destruct c; unfold unloaded, failed_at_startup.
  - rewrite Hemb. destruct (load_error env EMBEDDER_MODEL); reflexivity.
  - destruct (load_error env CLIP_MODEL), (load_error env CLIP_PROCESSOR);
      injection Hclip as Hm Hp; rewrite Hm, ?Hp; reflexivity.
  - destruct (load_error env WAV2VEC2_MODEL),
      (load_error env WAV2VEC2_PROCESSOR);
      injection Hwav as Hm Hp; rewrite Hm, ?Hp; reflexivity.
Qed.

(** The [is None] guards: nothing is called, nothing changes, the handler
    returns the error naming the capability. *)
Lemma unloaded_fails_fast env reg c r w :
  unloaded reg c = true ->
  targets r c = true ->
  app env reg r w = (Ok (error_500 (unloaded_message c)), w, []).
Proof.
  intros Hu Ht.
  destruct c, r; simpl in Ht; try discriminate; simpl in *.
  - unfold embed. destruct (embedder reg); [discriminate|reflexivity].
  - unfold image_embed.
    destruct (clip_model reg), (clip_processor reg);
      try discriminate; reflexivity.
  - unfold audio_embed.
    destruct (wav2vec2_model reg), (wav2vec2_processor reg);
      try discriminate; reflexivity.
Qed.

(** C4 (as stated) fails for the spaCy capability: loading its model raises
    at start-up, the process starts all the same, and a request to
    [/entity-linking] is answered with a success dict (an empty entity list
    from the blank pipeline), not with an error naming the capability as not
    loaded. *)
Lemma spacy_load_failure_is_masked :
  load_error env_spacy_missing SPACY_MODEL
  = Some (Exn "OSError" ("cannot load " ++ SPACY_MODEL))
  /\ result_of (startup env_spacy_missing world0) = Ok registry_blank_spacy
  /\ app env_spacy_missing registry_blank_spacy
       (PostEntityLinking (sample_text None)) world0
     = (Ok (PDict [("entities", PList [])]), world0,
        [Invoke "nlp_spacy" [];
         LogInfo ("Entity linking request: "
                    ++ "The service loads its models at start-up."
                    ++ "... -> ")]).
Proof. repeat split; vm_compute; reflexivity. Qed.

(** C4 (amended).  In a process whose start-up returned the registry [reg]:
    - for each of the three capabilities whose load failure the module
      records (sentence embedder, CLIP, Wav2Vec2), if loading its models
      raised, then every request to its endpoint returns normally with the
      error result naming the capability as not loaded, without any call
      into a model or library and without touching the file system;
    - if loading the spaCy model raised, the spaCy handle is the blank
      English pipeline, and the model otherwise. *)
Theorem recorded_load_failure_fails_fast env w0 reg w1 t :
  startup env w0 = (Ok reg, w1, t) ->
  (forall c r w,
     failed_at_startup env c = true ->
     targets r c = true ->
     app env reg r w = (Ok (error_500 (unloaded_message c)), w, []))
  /\
  nlp_spacy reg
  = Loaded (match load_error env SPACY_MODEL with
            | Some _ => SPACY_BLANK
            | None => SPACY_MODEL
            end).
Proof.
  intros Hs. split.
  - intros c r w Hf Ht.
    apply unloaded_fails_fast; [|assumption].
    rewrite (startup_records_failure _ _ _ _ _ c Hs). assumption.
  - exact (proj1 (startup_ok_registry _ _ _ _ _ Hs)).
Qed.

Lemma recorded_load_failure_fails_fast_witness :
  app env_embedders_missing registry_degraded
    (PostAudioEmbed (upload [])) world0
  = (Ok (error_500 "Wav2Vec2 model not loaded"), world0, []).
Proof.
  assert (Hs : startup env_embedders_missing world0
               = (Ok registry_degraded, world0,
                  events_of (startup env_embedders_missing world0)))
    by (vm_compute; reflexivity).
  destruct (recorded_load_failure_fails_fast _ _ _ _ _ Hs) as [Hfast _].
  apply (Hfast AudioEmbedding).
  - vm_compute. reflexivity.
  - reflexivity.
Defined.

(** ** OCR: primary engine and fallback *)

Ltac run_handler :=
  unfold try_except, bind, call, call_on_file, load, emit, lift, ret, raise,
    except_500, request_log, log_info, log_error, named_temporary_file,
    os_remove, result_of, world_of, events_of; simpl.

(** C5 (as stated) fails: when Tesseract raises and EasyOCR raises as well,
    the handler returns its error result, not a success. *)
Lemma ocr_fails_when_both_engines_raise :
  result_of (app env_both_ocr_raise registry_healthy (PostOcr (upload []))
               world0)
  = Ok (error_500 "image has no data").
Proof. vm_compute. reflexivity. Qed.

(** C5 (amended).  For an upload that opens as an image:
    - if Tesseract returns a text, the response is the success dict with that
      text and [ocr_method = "pytesseract"], and no EasyOCR reader is built;
    - if Tesseract raises, an EasyOCR reader is built, and when building it
      and reading the image both succeed the response is the success dict
      with the hits joined by spaces and [ocr_method = "easyocr"]. *)
Theorem ocr_primary_then_fallback env req w img :
  image_open env (body req) = Ok img ->
  (forall t,
     pytesseract_image_to_string env img = Ok t ->
     result_of (ocr_image env req w) = Ok (ocr_success t "pytesseract") /\
     loads (events_of (ocr_image env req w)) = []) /\
  (forall e,
     pytesseract_image_to_string env img = Raise e ->
     loads (events_of (ocr_image env req w)) = [EASYOCR_READER] /\
     (forall hits,
        load_error env EASYOCR_READER = None ->
        easyocr_readtext env (Loaded EASYOCR_READER) img = Ok hits ->
        result_of (ocr_image env req w)
        = Ok (ocr_success (str_join " " hits) "easyocr") /\
        invocations "reader.readtext" (events_of (ocr_image env req w))
        = [[]])).
Proof.
  intros Hopen. split.
  - intros t Ht. rewrite ocr_image_loads. simpl. rewrite Hopen, Ht.
    split; [|reflexivity].
    unfold ocr_image. run_handler. rewrite Hopen. simpl. rewrite Ht.
    reflexivity.
  - intros e He. rewrite ocr_image_loads. simpl. rewrite Hopen, He.
    split; [reflexivity|].
    intros hits Hload Hread.
    unfold ocr_image. run_handler. rewrite Hopen. simpl. rewrite He. simpl.
    rewrite Hload. simpl. rewrite Hread. simpl. split; reflexivity.
Qed.

Lemma ocr_primary_then_fallback_witness :
  result_of (ocr_image env_tesseract_missing (upload []) world0)
  = Ok (ocr_success "scanned text" "easyocr").
Proof.
  assert (Hopen : image_open env_tesseract_missing (body (upload []))
                  = Ok sample_bytes) by reflexivity.
  destruct (ocr_primary_then_fallback env_tesseract_missing (upload []) world0
              sample_bytes Hopen) as [_ Hfallback].
  destruct (Hfallback
              (Exn "TesseractNotFoundError" "tesseract is not installed")
              eq_refl) as [_ Hsecond].
  destruct (Hsecond ["scanned"; "text"] eq_refl eq_refl) as [Hres _].
  exact Hres.
Defined.

(** ** Summaries *)

Lemma is_extractive_iff req :
  is_extractive req = true <-> type req = Some "extractive".
Proof.
  unfold is_extractive. destruct (type req) as [t|]; split; intros H;
    try discriminate.
  - apply String.eqb_eq in H. congruence.
  - inversion H. apply String.eqb_refl.
Qed.

(** C7.  When [type] is ["extractive"], the summarizer is never called, and
    the summary is the keywords the extractor returned, in its order, joined
    by single spaces.  For any other [type], absent included, the keyword
    extractor is never called, the summarizer is called once, with
    [max_length=130, min_length=30, do_sample=False], and the summary is the
    [summary_text] of its first result. *)
Theorem summarize_by_type env reg req w :
  (type req = Some "extractive" ->
   invocations "summarizer" (events_of (summarize env reg req w)) = [] /\
   forall kws,
     yake_extract_keywords env (kw_extractor reg) (text req) = Ok kws ->
     result_of (summarize env reg req w)
     = Ok (PDict [("summary", PStr (str_join " " (map fst kws)))])) /\
  (type req <> Some "extractive" ->
   invocations "summarizer" (events_of (summarize env reg req w))
   = [[("max_length", PInt 130); ("min_length", PInt 30);
       ("do_sample", PBool false)]] /\
   invocations "kw_extractor.extract_keywords"
     (events_of (summarize env reg req w)) = [] /\
   forall out first s,
     pipeline_run env (summarizer reg) (text req) SUMMARIZER_KWARGS = Ok out ->
     getitem_int out 0 = Ok first ->
     getitem_str first "summary_text" = Ok s ->
     result_of (summarize env reg req w) = Ok (PDict [("summary", s)])).
Proof.
  split; intros Hty.
  - apply is_extractive_iff in Hty. unfold summarize. rewrite Hty.
    run_handler. split.
    + destruct (yake_extract_keywords env (kw_extractor reg) (text req));
        reflexivity.
    + intros kws Hk. rewrite Hk. reflexivity.
  - assert (Hne : is_extractive req = false).
    { destruct (is_extractive req) eqn:E; [|reflexivity].
      apply is_extractive_iff in E. contradiction. }
    unfold summarize. rewrite Hne. run_handler.
    destruct (pipeline_run env (summarizer reg) (text req) SUMMARIZER_KWARGS)
      as [out|e] eqn:Hrun; simpl.
    + repeat split.
      * destruct (getitem_int out 0) as [first|e]; simpl; [|reflexivity].
        destruct (getitem_str first "summary_text"); reflexivity.
      * destruct (getitem_int out 0) as [first|e]; simpl; [|reflexivity].
        destruct (getitem_str first "summary_text"); reflexivity.
      * intros out' first s Hout Hfirst Hs. inversion Hout; subst out'.
        rewrite Hfirst. simpl. rewrite Hs. reflexivity.
    + repeat split; try reflexivity. intros out first s Hout. discriminate.
Qed.

Lemma summarize_by_type_witness :
  result_of (summarize env_healthy registry_healthy
               (sample_text (Some "extractive")) world0)
  = Ok (PDict [("summary", PStr "model lifecycle error envelope")])
  /\
  result_of (summarize env_healthy registry_healthy (sample_text None) world0)
  = Ok (PDict [("summary", PStr "A short summary.")]).
Proof.
  split.
  - destruct (summarize_by_type env_healthy registry_healthy
                (sample_text (Some "extractive")) world0) as [Hext _].
    destruct (Hext eq_refl) as [_ Hsum].
    exact (Hsum [("model lifecycle", 0x1p-5%float);
                 ("error envelope", 0x1p-4%float)] eq_refl).
  - destruct (summarize_by_type env_healthy registry_healthy
                (sample_text None) world0) as [_ Hgen].
    assert (Hne : type (sample_text None) <> Some "extractive")
      by (simpl; discriminate).
    destruct (Hgen Hne) as [_ [_ Hsum]].
    exact (Hsum (PList [PDict [("summary_text", PStr "A short summary.")]])
             (PDict [("summary_text", PStr "A short summary.")])
             (PStr "A short summary.") eq_refl eq_refl eq_refl).
Defined.

(** ** Tables *)

(** C8.  When the extension of the file name hint, lower-cased as the handler
    does, is none of [.csv], [.xls], [.xlsx], the handler returns normally
    with an error result.  The message is that of the [ValueError] it raised
    and caught, "Unsupported table file type", whenever the upload could be
    staged; an extension too long for a file name makes the staging itself
    raise, before the extension is tested, and the message is then that of
    the [OSError]. *)
Theorem unsupported_extension_reported env reg req w :
  table_ext req <> ".csv" ->
  table_ext req <> ".xls" ->
  table_ext req <> ".xlsx" ->
  exists msg,
    result_of (app env reg (PostTable req) w) = Ok (error_500 msg) /\
    (tmp_name_fits (table_ext req) = true ->
     msg = "Unsupported table file type") /\
    (tmp_name_fits (table_ext req) = false ->
     msg = "[Errno 36] File name too long: "
             ++ py_repr_str (tmp_name (tmp_seq w) (table_ext req))).
Proof.
  intros Hcsv Hxls Hxlsx.
  apply String.eqb_neq in Hcsv, Hxls, Hxlsx.
  simpl. unfold parse_table, read_table, is_excel_ext.
  rewrite Hcsv, Hxls, Hxlsx.
  unfold try_except, bind, named_temporary_file, raise, except_500,
    log_error, emit, ret, result_of.
  destruct (tmp_name_fits (table_ext req)); simpl.
  - exists "Unsupported table file type".
    split; [reflexivity|]. split; intros H; [reflexivity|discriminate].
  - eexists. split; [reflexivity|].
    split; intros H; [discriminate|reflexivity].
Qed.

Lemma unsupported_extension_reported_witness :
  result_of (app env_healthy registry_healthy
               (PostTable (upload [("x-file-name", "notes.txt")])) world0)
  = Ok (error_500 "Unsupported table file type").
Proof.
  destruct (unsupported_extension_reported env_healthy registry_healthy
              (upload [("x-file-name", "notes.txt")]) world0)
    as (msg & Hres & Hfits & _);
    try (vm_compute; discriminate).
  rewrite Hres, (Hfits eq_refl). reflexivity.
Defined.

Lemma headers_get_absent hs key default :
  (forall v, ~ In (str_lower key, v) hs) -> headers_get hs key default = default.
Proof.
  induction hs as [|[k v] hs IH]; simpl; intros H; [reflexivity|].
  destruct (String.eqb k (str_lower key)) eqn:E.
  - apply String.eqb_eq in E. subst k. exfalso. apply (H v). left. reflexivity.
  - apply IH. intros v' Hin. apply (H v'). right. assumption.
Qed.

(** C10.  Without an [x-file-name] header the extension is [.csv]: the staged
    file is handed to [pd.read_csv], never to [pd.read_excel], and the response
    is the table read by [pd.read_csv], or the error result of whatever
    [pd.read_csv] raised. *)
Theorem missing_file_name_parsed_as_csv env req w :
  (forall v, ~ In ("x-file-name", v) (headers req)) ->
  table_ext req = ".csv" /\
  invocations "pd.read_csv" (events_of (parse_table env req w)) = [[]] /\
  invocations "pd.read_excel" (events_of (parse_table env req w)) = [] /\
  result_of (parse_table env req w)
  = match pd_read_csv env (body req) with
    | Ok df => Ok (table_success df)
    | Raise e => Ok (error_500 (exn_str e))
    end.
Proof.
  intros Habsent.
  assert (Hext : table_ext req = ".csv").
  { unfold table_ext.
    rewrite (headers_get_absent (headers req) "x-file-name" "table.csv");
      [reflexivity|exact Habsent]. }
  split; [exact Hext|].
  unfold parse_table. rewrite Hext. unfold read_table. simpl String.eqb.
  run_handler. rewrite !String.eqb_refl. simpl.
  destruct (pd_read_csv env (body req)) as [df|e]; simpl.
  - rewrite !String.eqb_refl. simpl. repeat split; reflexivity.
  - repeat split; reflexivity.
Qed.

Lemma missing_file_name_parsed_as_csv_witness :
  result_of (parse_table env_healthy (upload []) world0)
  = Ok (table_success table_a_b).
Proof.
  destruct (missing_file_name_parsed_as_csv env_healthy (upload []) world0)
    as [_ [_ [_ Hres]]].
  - intros v Hin. inversion Hin.
  - exact Hres.
Defined.

(** ** Entity linking *)

Lemma str_truthy_iff s : str_truthy s = true <-> s <> "".
Proof. destruct s; simpl; split; intros; congruence. Qed.

(** A dict built for a linked entity carries [float(kb_id)] as confidence. *)
Lemma link_entity_linked env e s :
  kb_id_ e = Some s -> s <> "" ->
  match float_of_str env s with
  | Some f =>
      exists dct, link_entity env e = Ok dct /\
                  getitem_str dct "confidence" = Ok (PFloat f)
  | None =>
      link_entity env e
      = Raise (Exn "ValueError"
                 ("could not convert string to float: " ++ py_repr_str s))
  end.
Proof.
  intros Hk Hs. apply str_truthy_iff in Hs.
  unfold link_entity. rewrite Hk, Hs. simpl.
  destruct (float_of_str env s) as [f|]; [|reflexivity].
  eexists. split; reflexivity.
Qed.

Lemma link_entity_unlinked env e :
  (forall s, kb_id_ e = Some s -> s = "") ->
  exists dct, link_entity env e = Ok dct.
Proof.
  intros H. unfold link_entity.
  destruct (kb_id_ e) as [s|]; [rewrite (H s eq_refl)|]; simpl;
    eexists; reflexivity.
Qed.

Lemma link_entities_raise env es :
  (exists e s, In e es /\ kb_id_ e = Some s /\ s <> "" /\
               float_of_str env s = None) ->
  exists ex, link_entities env es = Raise ex.
Proof.
  induction es as [|e0 es IH]; intros (e & s & Hin & Hk & Hs & Hf).
  - inversion Hin.
  - simpl. destruct (link_entity env e0) as [d0|ex0] eqn:E0;
      [|eexists; reflexivity].
    destruct Hin as [->|Hin].
    + pose proof (link_entity_linked env e s Hk Hs) as L.
      rewrite Hf in L. congruence.
    + destruct IH as [ex Hex]; [exists e, s; auto|].
      rewrite Hex. eexists; reflexivity.
Qed.

Lemma link_entities_ok env es :
  (forall e s, In e es -> kb_id_ e = Some s -> s <> "" ->
               float_of_str env s <> None) ->
  exists ds,
    link_entities env es = Ok ds /\
    Forall2 (fun e dct =>
               forall s, kb_id_ e = Some s -> s <> "" ->
                 exists f, float_of_str env s = Some f /\
                           getitem_str dct "confidence" = Ok (PFloat f))
      es ds.
Proof.
  induction es as [|e0 es IH]; intros H.
  - exists []. split; [reflexivity|constructor].
  - destruct IH as (ds & Hds & Hall).
    { intros e s Hin. apply H. right. assumption. }
    assert (exists d0, link_entity env e0 = Ok d0 /\
              forall s, kb_id_ e0 = Some s -> s <> "" ->
                exists f, float_of_str env s = Some f /\
                          getitem_str d0 "confidence" = Ok (PFloat f))
      as (d0 & Hd0 & Hconf).
    { destruct (kb_id_ e0) as [s|] eqn:Hk.
      - destruct s as [|c s'] eqn:Hs.
        + destruct (link_entity_unlinked env e0) as [d0 Hd0].
          { intros s0 Hs0. congruence. }
          exists d0. split; [assumption|]. intros s0 Hs0 Hne. congruence.
        + assert (Hne : String c s' <> "") by discriminate.
          pose proof (link_entity_linked env e0 (String c s') Hk Hne) as L.
          destruct (float_of_str env (String c s')) as [f|] eqn:Hf.
          * destruct L as (d0 & Hd0 & Hc). exists d0. split; [assumption|].
            intros s0 Hs0 _. inversion Hs0; subst s0. exists f. auto.
          * exfalso. apply (H e0 (String c s')); auto. left. reflexivity.
      - destruct (link_entity_unlinked env e0) as [d0 Hd0].
        { intros s0 Hs0. congruence. }
        exists d0. split; [assumption|]. intros s0 Hs0. congruence. }
    exists (d0 :: ds). split.
    + simpl. rewrite Hd0, Hds. reflexivity.
    + constructor; assumption.
Qed.

(** C9.  Once spaCy has returned a document:
    - if some entity has a non-empty knowledge-base id that [float] does not
      accept, the handler returns its error result and no entity list;
    - if [float] accepts every non-empty knowledge-base id, the handler
      returns the entity list, one dict per entity in order, and the
      confidence of each entity with a non-empty id is [float] of that id. *)
Theorem linked_confidence_is_float_of_id env reg req w d :
  spacy_run env (nlp_spacy reg) (text req) = Ok d ->
  ((exists e s, In e (ents d) /\ kb_id_ e = Some s /\ s <> "" /\
                float_of_str env s = None) ->
   exists msg, result_of (entity_linking env reg req w) = Ok (error_500 msg))
  /\
  ((forall e s, In e (ents d) -> kb_id_ e = Some s -> s <> "" ->
                float_of_str env s <> None) ->
   exists ds,
     result_of (entity_linking env reg req w)
     = Ok (PDict [("entities", PList ds)]) /\
     Forall2 (fun e dct =>
                forall s, kb_id_ e = Some s -> s <> "" ->
                  exists f, float_of_str env s = Some f /\
                            getitem_str dct "confidence" = Ok (PFloat f))
       (ents d) ds).
Proof.
  intros Hdoc. split.
  - intros Hbad. destruct (link_entities_raise env (ents d) Hbad) as [ex Hex].
    exists (exn_str ex). unfold entity_linking. run_handler.
    rewrite Hdoc. simpl. rewrite Hex. reflexivity.
  - intros Hgood.
    destruct (link_entities_ok env (ents d) Hgood) as (ds & Hds & Hall).
    exists ds. split; [|exact Hall].
    unfold entity_linking. run_handler.
    rewrite Hdoc. simpl. rewrite Hds. reflexivity.
Qed.

Lemma linked_confidence_is_float_of_id_witness :
  (exists msg,
     result_of (entity_linking env_wikidata registry_healthy
                  (sample_text None) world0)
     = Ok (error_500 msg))
  /\
  (exists ds,
     result_of (entity_linking env_numeric_ids registry_healthy
                  (sample_text None) world0)
     = Ok (PDict [("entities", PList ds)])).
Proof.
  split.
  - destruct (linked_confidence_is_float_of_id env_wikidata registry_healthy
                (sample_text None) world0
                {| ents := [ {| ent_text := "Paris"; kb_id_ := Some "Q90";
                                label_ := "GPE" |} ];
                   coref_resolved := None;
                   coref_clusters := None |} eq_refl) as [Hbad _].
    apply Hbad.
    exists {| ent_text := "Paris"; kb_id_ := Some "Q90"; label_ := "GPE" |},
      "Q90".
    repeat split.
    + left. reflexivity.
    + discriminate.
  - destruct (linked_confidence_is_float_of_id env_numeric_ids
                registry_healthy (sample_text None) world0
                {| ents := [ {| ent_text := "Paris"; kb_id_ := Some "0.5";
                                label_ := "GPE" |};
                             {| ent_text := "today"; kb_id_ := Some "";
                                label_ := "DATE" |} ];
                   coref_resolved := None;
                   coref_clusters := None |} eq_refl) as [_ Hgood].
    destruct Hgood as (ds & Hres & _).
    + intros e s [<-|[<-|[]]] Hk Hne; simpl in Hk; inversion Hk; subst s.
      * discriminate.
      * contradiction Hne. reflexivity.
    + exists ds. exact Hres.
Defined.

(** ** Embedding normalisation *)

(** A [float32] above zero is not zero. *)
Lemma positive_not_zero (x : float32) :
  SFltb (S754_zero false) x = true -> SFeqb x (S754_zero false) = false.
Proof.
  unfold SFltb, SFeqb.
  destruct x as [ [|] | [|] | | [|] m e]; simpl; congruence.
Qed.

Lemma reaches_normalisation_result env reg req k feats w :
  reaches_normalisation env reg req k feats ->
  result_of (embedding_handler k env reg req w)
  = Ok (embedding_response (tolist (l2_normalize feats))).
Proof.
  intros H. destruct H as
      [model processor opened img inputs feats Hm Hp Ho Hc Hi Hf
      |model processor speech rate inputs feats Hm Hp Hr Hi Hf]; simpl.
  - unfold image_embed. rewrite Hm, Hp. run_handler.
    rewrite Ho. simpl. rewrite Hc. simpl. rewrite Hi. simpl. rewrite Hf.
    reflexivity.
  - unfold audio_embed. rewrite Hm, Hp. run_handler.
    rewrite !String.eqb_refl. simpl. rewrite Hr. simpl.
    rewrite !String.eqb_refl. simpl. rewrite Hi. simpl. rewrite Hf.
    reflexivity.
Qed.

(** C6 (as stated) fails: a feature vector of two components [2^-100] has
    the computed norm zero, because the squares are below the smallest
    [float32]; the handler returns it as it is, and it is not the zero
    vector. *)
Lemma tiny_features_returned_unnormalised :
  np_linalg_norm [f32 1 (-100); f32 1 (-100)] = S754_zero false
  /\ result_of (image_embed env_tiny_features registry_healthy (upload [])
                  world0)
     = Ok (PDict [("embedding",
                    PList [PFloat 0x1p-100%float; PFloat 0x1p-100%float])]).
Proof. split; vm_compute; reflexivity. Qed.

(** C6 (amended).  For a request to [/image-embed] or [/audio-embed] that
    reaches the normalisation with the [float32] feature vector [feats],
    whose norm is computed in [float32] as the square root of the sum of
    squares:
    - when the computed norm is above zero, the embedding returned is
      [feats] with every component divided by that norm in [float32], and the
      divisor is not zero;
    - otherwise, that is when the computed norm is zero or NaN, the
      embedding returned is [feats] itself, with no division applied. *)
Theorem embedding_normalised_under_guard env reg req k feats w :
  reaches_normalisation env reg req k feats ->
  let norm :=
    SFsqrt 24 128
      (fold_left (fun s x => SFadd 24 128 s (SFmul 24 128 x x)) feats
         (S754_zero false)) in
  (SFltb (S754_zero false) norm = true ->
   result_of (embedding_handler k env reg req w)
   = Ok (PDict
           [("embedding",
              PList (map (fun x => PFloat (SF2Prim (SFdiv 24 128 x norm)))
                       feats))])
   /\ SFeqb norm (S754_zero false) = false)
  /\
  (SFltb (S754_zero false) norm = false ->
   result_of (embedding_handler k env reg req w)
   = Ok (PDict
           [("embedding", PList (map (fun x => PFloat (SF2Prim x)) feats))])).
Proof.
  intros H norm.
  rewrite (reaches_normalisation_result env reg req k feats w H).
  unfold embedding_response, tolist, l2_normalize, np_divide, np_linalg_norm.
  fold norm. split.
  - intros Hpos. rewrite Hpos. rewrite !map_map. split; [reflexivity|].
    apply positive_not_zero. exact Hpos.
  - intros Hnot. rewrite Hnot. rewrite map_map. reflexivity.
Qed.

Lemma embedding_normalised_under_guard_witness :
  result_of (audio_embed env_healthy registry_healthy (upload []) world0)
  = Ok (PDict [("embedding",
                 PList [PFloat 0x1.333334p-1%float;
                        PFloat 0x1.99999ap-1%float])])
  /\
  result_of (image_embed env_zero_features registry_healthy (upload []) world0)
  = Ok (PDict [("embedding", PList [PFloat 0%float; PFloat 0%float])]).
Proof.
  split.
  - assert (R : reaches_normalisation env_healthy registry_healthy (upload [])
                  AudioRoute [f32 3 0; f32 4 0]).
    { eapply audio_reaches; reflexivity. }
    destruct (embedding_normalised_under_guard env_healthy registry_healthy
                (upload []) AudioRoute [f32 3 0; f32 4 0] world0 R)
      as [Hpos _].
    destruct (Hpos eq_refl) as [Hres _].
    exact Hres.
  - assert (R : reaches_normalisation env_zero_features registry_healthy
                  (upload []) ImageRoute [f32 0 0; f32 0 0]).
    { eapply image_reaches; reflexivity. }
    destruct (embedding_normalised_under_guard env_zero_features
                registry_healthy (upload []) ImageRoute [f32 0 0; f32 0 0]
                world0 R) as [_ Hzero].
    exact (Hzero eq_refl).
Defined.

(* ------------------------------------------------------------------------- *)
(** * Further properties of the handlers *)

(** ** No exception leaves a handler *)

Lemma try_except_500_returns (m : M pyval) label w :
  exists v, result_of (try_except m (except_500 label) w) = Ok v.
Proof.
  unfold try_except, except_500, bind, log_error, emit, ret, result_of.
  destruct (m w) as [[[v|e] w1] t1]; simpl; eexists; reflexivity.
Qed.

(** X1.
    Every [Exception] raised while a request is handled, by a model, by a
    library call or by the handler's own indexing and conversions, is caught
    by the handler: it returns a value.  This holds for every endpoint, every
    registry and every state of the file system. *)
Theorem handlers_never_raise env reg r w :
  exists v, result_of (app env reg r w) = Ok v.
Proof.
  destruct r; simpl;
    unfold health, ner, sentiment, summarize, intent, keywords, coref,
      paraphrase, entity_linking, embed, extract_pdf, ocr_image,
      transcribe_audio, parse_table, image_embed, audio_embed;
    try apply try_except_500_returns.
  - eexists; reflexivity.
  - destruct (embedder reg);
      [apply try_except_500_returns|eexists; reflexivity].
  - destruct (clip_model reg), (clip_processor reg);
      try (eexists; reflexivity); apply try_except_500_returns.
  - destruct (wav2vec2_model reg), (wav2vec2_processor reg);
      try (eexists; reflexivity); apply try_except_500_returns.
Qed.

Ltac staged :=
  run_handler; rewrite ?String.eqb_refl; simpl.

(** ** When a staged file outlives its request *)

(** X5.
    After [/transcribe], the staged file is still there exactly when loading
    Whisper or the transcription raised; in particular it is removed when the
    transcription returned, also if the response then fails for a missing
    ["text"] key. *)
Theorem transcription_file_fate env req w :
  file_exists (world_of (transcribe_audio env req w))
    (tmp_name (tmp_seq w) ".wav")
  = load_raises env WHISPER_MODEL
    || raised (whisper_transcribe env (Loaded WHISPER_MODEL) (body req)).
Proof.
  unfold transcribe_audio, file_exists, load_raises. staged.
  destruct (load_error env WHISPER_MODEL); staged;
    [rewrite ?String.eqb_refl; reflexivity|].
  destruct (whisper_transcribe env (Loaded WHISPER_MODEL) (body req))
    as [result|e]; staged; [|rewrite ?String.eqb_refl; reflexivity].
  destruct (getitem_str result "text"); simpl;
    [destruct (dict_get result "language" (PStr "en")); simpl|];
    rewrite ?fs_lookup_removed; reflexivity.
Qed.

(** X6.
    After [/table], when the upload could be staged, the staged file is still
    there exactly when the extension is not supported or the parser picked
    for it raised.  When the extension is too long for a file name, nothing
    is staged and the file system is left as it was. *)
Theorem table_file_fate env req w :
  if tmp_name_fits (table_ext req)
  then
    file_exists (world_of (parse_table env req w))
      (tmp_name (tmp_seq w) (table_ext req))
    = (if String.eqb (table_ext req) ".csv"
       then raised (pd_read_csv env (body req))
       else if is_excel_ext (table_ext req)
            then raised (pd_read_excel env (body req))
            else true)
  else
    world_of (parse_table env req w) = w
    /\ created (events_of (parse_table env req w)) = [].
Proof.
  unfold parse_table, read_table, file_exists.
  destruct (tmp_name_fits (table_ext req)) eqn:Hfits.
  - destruct (String.eqb (table_ext req) ".csv");
      [|destruct (is_excel_ext (table_ext req))];
      run_handler; rewrite Hfits; simpl; rewrite ?String.eqb_refl; simpl.
    + destruct (pd_read_csv env (body req)); simpl;
        rewrite ?String.eqb_refl; simpl;
        rewrite ?fs_lookup_removed, ?String.eqb_refl; reflexivity.
    + destruct (pd_read_excel env (body req)); simpl;
        rewrite ?String.eqb_refl; simpl;
        rewrite ?fs_lookup_removed, ?String.eqb_refl; reflexivity.
    + reflexivity.
  - unfold try_except, bind, named_temporary_file, except_500, log_error,
      emit, ret, world_of, events_of.
    rewrite Hfits. split; reflexivity.
Qed.

(** X7.
    In [/audio-embed] with both Wav2Vec2 handles loaded, the staged file is
    removed as soon as [sf.read] has returned: it outlives the request exactly
    when [sf.read] raised, whatever the processor and the model do later. *)
Theorem audio_file_fate env reg req w model processor :
  wav2vec2_model reg = Some model ->
  wav2vec2_processor reg = Some processor ->
  file_exists (world_of (audio_embed env reg req w))
    (tmp_name (tmp_seq w) ".wav")
  = raised (sf_read env (body req)).
Proof.
  intros Hm Hp. unfold audio_embed, file_exists. rewrite Hm, Hp. staged.
  destruct (sf_read env (body req)) as [[speech rate]|e]; staged;
    [|rewrite ?String.eqb_refl; reflexivity].
  destruct (wav2vec2_processor_run env processor _ rate) as [inputs|e]; simpl;
    [destruct (wav2vec2_features env model inputs); simpl|];
    rewrite ?fs_lookup_removed; reflexivity.
Qed.

Lemma audio_file_fate_witness :
  result_of (audio_embed env_processor_raises registry_healthy (upload [])
               world0)
  = Ok (error_500 "sampling rate mismatch")
  /\ file_exists
       (world_of (audio_embed env_processor_raises registry_healthy
                    (upload []) world0))
       (tmp_name (tmp_seq world0) ".wav")
     = false.
Proof.
  split; [vm_compute; reflexivity|].
  apply (audio_file_fate env_processor_raises registry_healthy (upload [])
           world0 (Loaded WAV2VEC2_MODEL) (Loaded WAV2VEC2_PROCESSOR));
    reflexivity.
Defined.

(** ** Error records and error returns *)

(** X4.
    For the twelve endpoints whose handler starts with a model or library call
    (with its handle loaded): when that call raises, the handler calls
    nothing else, writes one error record, its own label followed by the text
    of that exception, and returns the error result carrying exactly that
    text; the file system is not touched. *)
Theorem first_call_error_is_returned env reg r w callee kwargs e :
  first_call env reg r = Some (callee, kwargs, Some e) ->
  app env reg r w
  = (Ok (error_500 (exn_str e)), w,
     [Invoke callee kwargs; LogError (error_label r ++ exn_str e)]).
Proof.
  intros H.
  destruct r; cbv beta iota delta [first_call] in H; try discriminate;
    cbv beta iota delta [app];
    unfold ner, sentiment, summarize, intent, keywords, coref, paraphrase,
      entity_linking, embed, extract_pdf, ocr_image, image_embed;
    unfold raised_exn in H;
    repeat match type of H with
           | context [match ?x with _ => _ end] => destruct x eqn:?
           end;
    try discriminate; inversion H; subst;
    unfold call, except_500, request_log, log_info, log_error;
    unfold try_except, bind, emit, lift, ret;
    repeat match goal with
           | E : ?x = Raise _ |- context [?x] => rewrite E
           end;
    reflexivity.
Qed.

Lemma first_call_error_is_returned_witness :
  app env_pipeline_raises registry_healthy (PostNer (sample_text None)) world0
  = (Ok (error_500 "CUDA out of memory"), world0,
     [Invoke "ner_pipeline" []; LogError "NER error: CUDA out of memory"]).
Proof.
  apply (first_call_error_is_returned env_pipeline_raises registry_healthy
           (PostNer (sample_text None)) world0 "ner_pipeline" []
           (Exn "RuntimeError" "CUDA out of memory")).
  reflexivity.
Defined.

(** ** PDF extraction *)

Lemma extract_pages_all (texts : list (option string)) w :
  extract_pages (map (@Ok (option string)) texts) w
  = (Ok (map page_text texts), w,
     repeat (Invoke "page.extract_text" []) (List.length texts)).
Proof.
  induction texts as [|t texts IH]; simpl; [reflexivity|].
  unfold bind at 1. unfold call at 1. unfold bind at 1, emit, lift. simpl.
  unfold bind at 1. rewrite IH. unfold ret. simpl.
  rewrite app_nil_r. reflexivity.
Qed.

Lemma extract_pages_broken (before : list (option string)) e after w :
  extract_pages (map (@Ok (option string)) before ++ Raise e :: after)%list w
  = (Raise e, w,
     repeat (Invoke "page.extract_text" []) (S (List.length before))).
Proof.
  induction before as [|t before IH]; simpl.
  - reflexivity.
  - unfold bind at 1. unfold call at 1. unfold bind at 1, emit, lift. simpl.
    unfold bind at 1. rewrite IH. reflexivity.
Qed.

Lemma invocations_repeat callee n :
  invocations callee (repeat (Invoke callee []) n) = repeat [] n.
Proof.
  induction n as [|n IH]; simpl; [reflexivity|].
  rewrite String.eqb_refl, IH. reflexivity.
Qed.

Lemma invocations_before_error_log callee t msg :
  invocations callee (t ++ [LogError msg])%list = invocations callee t.
Proof.
  induction t as [|ev t IH]; simpl; [reflexivity|].
  destruct ev as [n|c kw|m|m|f|f]; rewrite ?IH; try reflexivity.
Qed.

(** X9.
    When the document opens and every page yields its text, the response
    holds the page texts joined by newlines, a page without text counting as
    the empty string, and [num_pages] is the number of pages; a document
    without pages gives the empty text and zero. *)
Theorem pdf_text_and_page_count env req w texts :
  pdf_open env (body req) = Ok (map (@Ok (option string)) texts) ->
  result_of (extract_pdf env req w)
  = Ok (PDict [("text", PStr (str_join newline (map page_text texts)));
               ("metadata",
                 PDict [("num_pages", PInt (Z.of_nat (List.length texts)))])]).
Proof.
  intros Hopen. unfold extract_pdf, try_except, result_of.
  unfold bind at 1. unfold call, bind at 1, emit, lift. rewrite Hopen. simpl.
  unfold bind at 1. rewrite extract_pages_all. simpl.
  rewrite length_map. reflexivity.
Qed.

Lemma pdf_text_and_page_count_witness :
  result_of (extract_pdf env_processor_raises (upload []) world0)
  = Ok (PDict [("text", PStr ("first" ++ newline ++ newline ++ "third"));
               ("metadata", PDict [("num_pages", PInt 3)])]).
Proof.
  apply (pdf_text_and_page_count env_processor_raises (upload []) world0
           [Some "first"; None; Some "third"]).
  reflexivity.
Defined.

(** X10.
    When [extract_text] raises on a page, the request ends with the error
    return for that exception: no text of the pages before it is returned,
    and the pages after it are not read. *)
Theorem pdf_broken_page_fails_request env req w before e after :
  pdf_open env (body req)
  = Ok (map (@Ok (option string)) before ++ Raise e :: after)%list ->
  result_of (extract_pdf env req w) = Ok (error_500 (exn_str e))
  /\ List.length
       (invocations "page.extract_text" (events_of (extract_pdf env req w)))
     = S (List.length before).
Proof.
  intros Hopen.
  assert (Hrun : extract_pdf env req w
                 = (Ok (error_500 (exn_str e)), w,
                    ((Invoke "pdfplumber.open" []
                        :: repeat (Invoke "page.extract_text" [])
                             (S (List.length before)))
                       ++ [LogError ("PDF extraction error: " ++ exn_str e)])
                    %list)).
  { unfold extract_pdf, try_except.
    unfold bind at 1. unfold call, bind at 1, emit, lift. rewrite Hopen.
    cbv beta iota zeta.
    unfold bind at 1. rewrite extract_pages_broken.
    reflexivity. }
  rewrite Hrun. unfold result_of, events_of, fst, snd.
  split; [reflexivity|].
  rewrite invocations_before_error_log.
  change (invocations "page.extract_text"
            (Invoke "pdfplumber.open" []
               :: repeat (Invoke "page.extract_text" [])
                    (S (List.length before))))
    with (invocations "page.extract_text"
            (repeat (Invoke "page.extract_text" []) (S (List.length before)))).
  rewrite invocations_repeat, repeat_length. reflexivity.
Qed.

Lemma pdf_broken_page_fails_request_witness :
  result_of (extract_pdf env_edge_cases (upload []) world0)
  = Ok (error_500 "bad xref").
Proof.
  apply (pdf_broken_page_fails_request env_edge_cases (upload []) world0
           [Some "first"] (Exn "PDFSyntaxError" "bad xref") [Ok (Some "third")]).
  reflexivity.
Defined.

(** ** Pipelines that return nothing *)

(** X11.
    When the model returns an empty list, the four handlers that read
    [result[0]] answer with the error return of the [IndexError]: sentiment,
    abstractive summarisation, intent and paraphrase. *)
Theorem empty_pipeline_result_is_reported env reg req w :
  (pipeline_run env (sentiment_pipeline reg) (text req) [] = Ok (PList []) ->
   result_of (sentiment env reg req w)
   = Ok (error_500 "list index out of range"))
  /\
  (type req <> Some "extractive" ->
   pipeline_run env (summarizer reg) (text req) SUMMARIZER_KWARGS
   = Ok (PList []) ->
   result_of (summarize env reg req w)
   = Ok (error_500 "list index out of range"))
  /\
  (pipeline_run env (intent_pipeline reg) (text req) [] = Ok (PList []) ->
   result_of (intent env reg req w)
   = Ok (error_500 "list index out of range"))
  /\
  (pipeline_run env (paraphrase_pipeline reg) ("paraphrase: " ++ text req)
     PARAPHRASE_KWARGS = Ok (PList []) ->
   result_of (paraphrase env reg req w)
   = Ok (error_500 "list index out of range")).
Proof.
  repeat split.
  - intros H. unfold sentiment. run_handler. rewrite H. reflexivity.
  - intros Hty H.
    assert (Hne : is_extractive req = false).
    { destruct (is_extractive req) eqn:E; [|reflexivity].
      apply is_extractive_iff in E. contradiction. }
    unfold summarize. rewrite Hne. run_handler. rewrite H. reflexivity.
  - intros H. unfold intent. run_handler. rewrite H. reflexivity.
  - intros H. unfold paraphrase. run_handler.
    simpl in H. rewrite H. reflexivity.
Qed.

Lemma empty_pipeline_result_is_reported_witness :
  result_of (sentiment env_edge_cases registry_healthy (sample_text None)
               world0)
  = Ok (error_500 "list index out of range")
  /\
  result_of (summarize env_edge_cases registry_healthy (sample_text None)
               world0)
  = Ok (error_500 "list index out of range").
Proof.
  destruct (empty_pipeline_result_is_reported env_edge_cases registry_healthy
              (sample_text None) world0) as (Hsent & Hsum & _ & _).
  split.
  - apply Hsent. reflexivity.
  - apply Hsum; [simpl; discriminate|reflexivity].
Defined.

Lemma getitem_int_first x rest : getitem_int (PList (x :: rest)) 0 = Ok x.
Proof.
  unfold getitem_int, seq_index.
  change (0 <? 0) with false. cbv iota.
  assert (E : (Z.of_nat (List.length (x :: rest)) <=? 0) = false).
  { apply Z.leb_gt. simpl List.length. lia. }
  rewrite E. reflexivity.
Qed.

(** X12.
    When the first result of the summarizer is a dict without a
    [summary_text] entry, the response is the error return of the [KeyError],
    whose text is the quoted key. *)
Theorem summary_without_text_is_reported env reg req w d rest :
  type req <> Some "extractive" ->
  pipeline_run env (summarizer reg) (text req) SUMMARIZER_KWARGS
  = Ok (PList (PDict d :: rest)) ->
  dict_lookup d "summary_text" = None ->
  result_of (summarize env reg req w) = Ok (error_500 "'summary_text'").
Proof.
  intros Hty H Hd.
  assert (Hne : is_extractive req = false).
  { destruct (is_extractive req) eqn:E; [|reflexivity].
    apply is_extractive_iff in E. contradiction. }
  unfold summarize. rewrite Hne.
  unfold call, request_log, log_info, except_500, log_error.
  unfold try_except, bind, emit, lift, ret, result_of.
  rewrite H. cbv beta iota zeta. rewrite getitem_int_first.
  cbv beta iota zeta. unfold getitem_str. rewrite Hd. reflexivity.
Qed.

Lemma summary_without_text_is_reported_witness :
  result_of (summarize
               (sample_env_io
                  (fun _ _ _ => Ok (PList [PDict [("text", PStr "short")]]))
                  spacy_unlinked pdf_three_pages (Ok table_a_b) (Ok table_a_b)
                  (Ok (sample_bytes_audio, 16000)) whisper_hello)
               registry_healthy (sample_text None) world0)
  = Ok (error_500 "'summary_text'").
Proof.
  apply (summary_without_text_is_reported _ _ _ _ [("text", PStr "short")] []).
  - simpl. discriminate.
  - reflexivity.
  - reflexivity.
Defined.

(** ** spaCy without coreference or links *)

(** X13.
    When the document spaCy returns has neither [coref_resolved] nor
    [coref_clusters] (as with the blank pipeline), [/coref] answers with the
    request text unchanged and an empty cluster list. *)
Theorem coref_falls_back_to_request_text env reg req w d :
  spacy_run env (nlp_spacy reg) (text req) = Ok d ->
  coref_resolved d = None ->
  coref_clusters d = None ->
  result_of (coref env reg req w)
  = Ok (PDict [("resolved_text", PStr (text req)); ("clusters", PList [])]).
Proof.
  intros Hd Hr Hc. unfold coref.
  unfold call, request_log, log_info, except_500, log_error.
  unfold try_except, bind, emit, lift, ret, result_of.
  rewrite Hd. cbv beta iota zeta. rewrite Hr, Hc. reflexivity.
Qed.

Lemma coref_falls_back_to_request_text_witness :
  result_of (coref env_spacy_missing registry_blank_spacy (sample_text None)
               world0)
  = Ok (PDict [("resolved_text",
                 PStr "The service loads its models at start-up.");
               ("clusters", PList [])]).
Proof.
  apply (coref_falls_back_to_request_text env_spacy_missing
           registry_blank_spacy (sample_text None) world0 empty_doc);
    reflexivity.
Defined.

Lemma link_entities_unlinked env es :
  (forall e, In e es -> kb_id_ e = None \/ kb_id_ e = Some "") ->
  link_entities env es = Ok (map unlinked_entity es).
Proof.
  induction es as [|e es IH]; intros H; simpl; [reflexivity|].
  assert (He : link_entity env e = Ok (unlinked_entity e)).
  { unfold link_entity, unlinked_entity.
    destruct (H e (or_introl eq_refl)) as [Hk|Hk]; rewrite Hk; reflexivity. }
  rewrite He, IH; [reflexivity|].
  intros e' Hin. apply H. right. assumption.
Qed.

(** X14.
    When no entity of the document carries a knowledge-base id (the
    attribute is missing or empty), [/entity-linking] always succeeds: every
    entity is reported with an empty [entity_id] and confidence 1.0, and
    [float] is never consulted. *)
Theorem unlinked_entities_get_full_confidence env reg req w d :
  spacy_run env (nlp_spacy reg) (text req) = Ok d ->
  (forall e, In e (ents d) -> kb_id_ e = None \/ kb_id_ e = Some "") ->
  result_of (entity_linking env reg req w)
  = Ok (PDict [("entities", PList (map unlinked_entity (ents d)))]).
Proof.
  intros Hd Hun. unfold entity_linking.
  unfold call, request_log, log_info, except_500, log_error.
  unfold try_except, bind, emit, lift, ret, result_of.
  rewrite Hd. cbv beta iota zeta.
  rewrite (link_entities_unlinked env (ents d) Hun). reflexivity.
Qed.

Lemma unlinked_entities_get_full_confidence_witness :
  result_of (entity_linking env_processor_raises registry_healthy
               (sample_text None) world0)
  = Ok (PDict
          [("entities",
             PList [PDict [("mention", PStr "Paris"); ("entity_id", PStr "");
                           ("entity_label", PStr "GPE");
                           ("confidence", PFloat 1%float)];
                    PDict [("mention", PStr "Monday"); ("entity_id", PStr "");
                           ("entity_label", PStr "DATE");
                           ("confidence", PFloat 1%float)]])]).
Proof.
  apply (unlinked_entities_get_full_confidence env_processor_raises
           registry_healthy (sample_text None) world0
           {| ents := [ {| ent_text := "Paris"; kb_id_ := Some "";
                           label_ := "GPE" |};
                        {| ent_text := "Monday"; kb_id_ := None;
                           label_ := "DATE" |} ];
              coref_resolved := None;
              coref_clusters := None |}).
  - reflexivity.
  - intros e [<-|[<-|[]]]; simpl; auto.
Defined.

(** ** Spreadsheets *)

Lemma excel_ext_is_not_csv ext :
  is_excel_ext ext = true -> String.eqb ext ".csv" = false.
Proof.
  unfold is_excel_ext. intros H. apply orb_true_iff in H.
  destruct H as [H|H]; apply String.eqb_eq in H; subst; reflexivity.
Qed.

Lemma excel_ext_fits ext :
  is_excel_ext ext = true -> tmp_name_fits ext = true.
Proof.
  unfold is_excel_ext. intros H. apply orb_true_iff in H.
  destruct H as [H|H]; apply String.eqb_eq in H; subst; reflexivity.
Qed.

(** X8.
    A file name hint ending in [.xls] or [.xlsx], in any letter case, sends
    the staged file to [pd.read_excel] and never to [pd.read_csv]; the
    response is the table read, or the error return of what [pd.read_excel]
    raised. *)
Theorem spreadsheet_parsed_by_read_excel env req w :
  is_excel_ext (table_ext req) = true ->
  invocations "pd.read_excel" (events_of (parse_table env req w)) = [[]] /\
  invocations "pd.read_csv" (events_of (parse_table env req w)) = [] /\
  result_of (parse_table env req w)
  = match pd_read_excel env (body req) with
    | Ok df => Ok (table_success df)
    | Raise e => Ok (error_500 (exn_str e))
    end.
Proof.
  intros Hx. unfold parse_table, read_table.
  rewrite (excel_ext_is_not_csv _ Hx), Hx.
  unfold named_temporary_file. rewrite (excel_ext_fits _ Hx). staged.
  destruct (pd_read_excel env (body req)) as [df|e]; staged;
    repeat split; reflexivity.
Qed.

Lemma spreadsheet_parsed_by_read_excel_witness :
  result_of (parse_table env_edge_cases
               (upload [("x-file-name", "Budget.XLSX")]) world0)
  = Ok (error_500 "Excel file format cannot be determined").
Proof.
  destruct (spreadsheet_parsed_by_read_excel env_edge_cases
              (upload [("x-file-name", "Budget.XLSX")]) world0)
    as (_ & _ & Hres).
  - reflexivity.
  - exact Hres.
Defined.

(** ** When the process starts *)

Lemma result_of_bind_load {B} env name (k : handle -> M B) w :
  result_of (bind (load env name) k w)
  = match load_error env name with
    | Some e => Raise e
    | None => result_of (k (Loaded name) w)
    end.
Proof.
  unfold load, bind, emit, ret, raise, result_of.
  destruct (load_error env name); simpl; [reflexivity|].
  destruct (k (Loaded name) w) as [[r w2] t2]. reflexivity.
Qed.

Lemma result_of_bind_load_spacy {B} env (k : handle -> M B) w :
  result_of (bind (load_spacy env) k w)
  = match load_error env SPACY_MODEL with
    | None => result_of (k (Loaded SPACY_MODEL) w)
    | Some _ =>
        match load_error env SPACY_BLANK with
        | Some e => Raise e
        | None => result_of (k (Loaded SPACY_BLANK) w)
        end
    end.
Proof.
  unfold load_spacy, try_except, load, bind, emit, ret, raise, result_of.
  destruct (load_error env SPACY_MODEL); simpl.
  - destruct (load_error env SPACY_BLANK); simpl; [reflexivity|].
    destruct (k (Loaded SPACY_BLANK) w) as [[r w2] t2]. reflexivity.
  - destruct (k (Loaded SPACY_MODEL) w) as [[r w2] t2]. reflexivity.
Qed.

(** The guarded loads always return, and leave the state alone. *)
Lemma load_embedder_returns env :
  exists v t, forall w, load_embedder env w = (Ok v, w, t).
Proof.
  unfold load_embedder, try_except, load, bind, emit, ret, raise, log_error.
  destruct (load_error env EMBEDDER_MODEL); simpl; eexists; eexists;
    intros w; reflexivity.
Qed.

Lemma load_pair_returns env label m p :
  exists v t, forall w, load_pair env label m p w = (Ok v, w, t).
Proof.
  unfold load_pair, try_except, load, bind, emit, ret, raise, log_error.
  destruct (load_error env m); simpl;
    [eexists; eexists; intros w; reflexivity|].
  destruct (load_error env p); simpl; eexists; eexists; intros w;
    reflexivity.
Qed.

Lemma result_of_bind_returns {A B} (m : M A) (k : A -> M B) v t w :
  (forall w, m w = (Ok v, w, t)) ->
  result_of (bind m k w) = result_of (k v w).
Proof.
  intros H. unfold bind, result_of. rewrite H.
  destruct (k v w) as [[r w2] t2]. reflexivity.
Qed.

(** X15.
    Importing the module fails exactly when one of the five pipelines, the
    keyword extractor, or both the spaCy model and the blank pipeline fail to
    load.  Whether the sentence embedder, CLIP or Wav2Vec2 load has no
    influence on it. *)
Theorem startup_fails_iff_essential_load_fails env w :
  raised (result_of (startup env w)) = negb (essential_loads_ok env).
Proof.
  unfold startup, essential_loads_ok.
  rewrite result_of_bind_load.
  destruct (load_error env NER_MODEL); [reflexivity|].
  rewrite result_of_bind_load.
  destruct (load_error env SENTIMENT_MODEL); [reflexivity|].
  rewrite result_of_bind_load.
  destruct (load_error env SUMMARY_MODEL); [reflexivity|].
  rewrite result_of_bind_load.
  destruct (load_error env PARAPHRASE_MODEL); [reflexivity|].
  rewrite result_of_bind_load.
  destruct (load_error env INTENT_MODEL); [reflexivity|].
  rewrite result_of_bind_load_spacy.
  assert (Tail : forall spc,
             raised
               (result_of
                  ((kw <- load env YAKE_EXTRACTOR ;;
                    emb <- load_embedder env ;;
                    clip <- load_pair env "Failed to load CLIP model: "
                              CLIP_MODEL CLIP_PROCESSOR ;;
                    wav <- load_pair env "Failed to load Wav2Vec2 model: "
                             WAV2VEC2_MODEL WAV2VEC2_PROCESSOR ;;
                    ret {| ner_pipeline := Loaded NER_MODEL;
                           sentiment_pipeline := Loaded SENTIMENT_MODEL;
                           summarizer := Loaded SUMMARY_MODEL;
                           paraphrase_pipeline := Loaded PARAPHRASE_MODEL;
                           intent_pipeline := Loaded INTENT_MODEL;
                           nlp_spacy := spc;
                           kw_extractor := kw;
                           embedder := emb;
                           clip_model := fst clip;
                           clip_processor := snd clip;
                           wav2vec2_model := fst wav;
                           wav2vec2_processor := snd wav |}) w))
             = match load_error env YAKE_EXTRACTOR with
               | Some _ => true
               | None => false
               end).
  { intros spc. rewrite result_of_bind_load.
    destruct (load_error env YAKE_EXTRACTOR); [reflexivity|].
    destruct (load_embedder_returns env) as (emb & te & He).
    rewrite (result_of_bind_returns _ _ emb te w He).
    destruct (load_pair_returns env "Failed to load CLIP model: "
                CLIP_MODEL CLIP_PROCESSOR) as (clip & tc & Hc).
    rewrite (result_of_bind_returns _ _ clip tc w Hc).
    destruct (load_pair_returns env "Failed to load Wav2Vec2 model: "
                WAV2VEC2_MODEL WAV2VEC2_PROCESSOR) as (wav & tw & Hw).
    rewrite (result_of_bind_returns _ _ wav tw w Hw).
    reflexivity. }
  destruct (load_error env SPACY_MODEL).
  - destruct (load_error env SPACY_BLANK); [reflexivity|].
    rewrite Tail. destruct (load_error env YAKE_EXTRACTOR); reflexivity.
  - rewrite Tail.
    destruct (load_error env SPACY_BLANK),
      (load_error env YAKE_EXTRACTOR); reflexivity.
Qed.

(** ** Transcription without a reported language *)

(** X16.
    When Whisper loads and its result has a ["text"] entry but no
    ["language"] entry, the response reports the language as ["en"]. *)
Theorem transcription_language_defaults_to_en env req w d txt :
  load_error env WHISPER_MODEL = None ->
  whisper_transcribe env (Loaded WHISPER_MODEL) (body req) = Ok (PDict d) ->
  dict_lookup d "text" = Some txt ->
  dict_lookup d "language" = None ->
  result_of (transcribe_audio env req w)
  = Ok (PDict [("text", txt); ("metadata", PDict [("language", PStr "en")])]).
Proof.
  intros Hload Hrun Htxt Hlang. unfold transcribe_audio. staged.
  rewrite Hload. staged. rewrite Hrun. staged.
  unfold getitem_str, dict_get. rewrite Htxt, Hlang. reflexivity.
Qed.

Lemma transcription_language_defaults_to_en_witness :
  result_of (transcribe_audio
               (sample_env_io pipeline_summary spacy_unlinked pdf_three_pages
                  (Ok table_a_b) (Ok table_a_b)
                  (Ok (sample_bytes_audio, 16000))
                  (Ok (PDict [("text", PStr "bonjour")])))
               (upload []) world0)
  = Ok (PDict [("text", PStr "bonjour");
               ("metadata", PDict [("language", PStr "en")])]).
Proof.
  apply (transcription_language_defaults_to_en _ _ _
           [("text", PStr "bonjour")] (PStr "bonjour")); reflexivity.
Defined.
